(** * Azure NetApp Files dual-protocol sample: a model of [src/example.py]

    The script is a linear orchestration over a cloud management SDK.  It is
    embedded here as a program in a small monad that reads the history of the
    interaction, emits the events of the run (console lines, SDK calls and
    their completions, polls) and ends with a value, a Python exception or a
    call that never returns.  Everything outside [example.py] (the SDK, the
    prompt, the file system, the helper modules) is an environment [Env]
    whose answers may depend on the whole history. *)

From Stdlib Require Import List String Ascii NArith PeanoNat Lia.
From Stdlib.Strings Require Import Byte.
Import ListNotations.
Open Scope string_scope.
Open Scope list_scope.

Set Implicit Arguments.

(* ================================================================== *)
(** ** Python values used by the script *)

(** A Python [str] is represented by the string of its UTF-8 bytes, so
    [str.encode()] and [bytes.decode()] are the two conversions between
    [string] and [list byte]. *)
Definition bytes := list byte.
Definition str_encode (s : string) : bytes := list_byte_of_string s.
Definition bytes_decode (b : bytes) : string := string_of_list_byte b.

Definition TAB : string := String (ascii_of_nat 9) EmptyString.

(** [template.format(args...)] for templates whose only fields are [{}].
    Every template of the script has as many fields as arguments; a field
    without argument is left in place. *)
Fixpoint format (template : string) (args : list string) : string :=
  match template with
  | EmptyString => EmptyString
  | String c rest =>
      match c, rest, args with
      | "{"%char, String "}"%char rest', a :: args' => (a ++ format rest' args')%string
      | _, _, _ => String c (format rest args)
      end
  end.

(** [str(list)] for a list of plain strings: the elements' [repr], taken
    here for strings without quote, backslash or control characters. *)
Definition repr_str (s : string) : string := ("'" ++ s ++ "'")%string.
Definition str_of_list (l : list string) : string :=
  ("[" ++ String.concat ", " (map repr_str l) ++ "]")%string.

(* ------------------------------------------------------------------ *)
(** *** [base64.b64encode] (RFC 4648, standard alphabet, padded) *)

Definition b64_alphabet : list byte :=
  list_byte_of_string
    "ABCDEFGHIJKLMNOPQRSTUVWXYZabcdefghijklmnopqrstuvwxyz0123456789+/".

Definition b64_digit (n : N) : byte :=
  nth (N.to_nat (N.land n 63)) b64_alphabet x3d.

Definition b64_pad : byte := x3d.

Fixpoint b64encode (data : bytes) : bytes :=
  match data with
  | [] => []
  | [a] =>
      let x := Byte.to_N a in
      [b64_digit (N.shiftr x 2); b64_digit (N.shiftl (N.land x 3) 4);
       b64_pad; b64_pad]
  | [a; b] =>
      let x := Byte.to_N a in
      let y := Byte.to_N b in
      [b64_digit (N.shiftr x 2);
       b64_digit (N.lor (N.shiftl (N.land x 3) 4) (N.shiftr y 4));
       b64_digit (N.shiftl (N.land y 15) 2);
       b64_pad]
  | a :: b :: c :: rest =>
      let x := Byte.to_N a in
      let y := Byte.to_N b in
      let z := Byte.to_N c in
      b64_digit (N.shiftr x 2)
      :: b64_digit (N.lor (N.shiftl (N.land x 3) 4) (N.shiftr y 4))
      :: b64_digit (N.lor (N.shiftl (N.land y 15) 2) (N.shiftr z 6))
      :: b64_digit (N.land z 63)
      :: b64encode rest
  end.

(* ================================================================== *)
(** ** Module constants of [example.py] *)

Definition RESOURCE_GROUP_NAME := "<Resource Group Name>".
Definition LOCATION := "<Location>".
Definition VNET_NAME := "<VNET>".
Definition SUBNET_NAME := "<Subnet Name>".
Definition ANF_ACCOUNT_NAME := "<Account Name>".
Definition CAPACITY_POOL_NAME := "<Capacity Pool>".
Definition CAPACITY_POOL_SERVICE_LEVEL := "Standard".
Definition VOLUME_NAME := "<Volume Name>".

Definition CAPACITY_POOL_SIZE : N := 4398046511104.
Definition VOLUME_SIZE : N := 107374182400.

Definition DOMAIN_JOIN_USERNAME := "aduser".
Definition DNS_LIST := "10.25.4.68".
Definition AD_FQDN := "testdomain.local".
Definition SMB_SERVERNAME_PREFIX := "testsmb".

Definition ROOT_CA_CERT_FULL_FILEPATH := "./ad-server.cer".

Definition CLEANUP_RESOURCES : bool := false.

(* ================================================================== *)
(** ** The SDK's resource models (the fields the script sets or reads) *)

(** A value that is a [str] or [None]: the attributes the service fills in
    ([id], [name], the mount target's addresses) and whatever the script
    derives from them. *)
Definition PyStr := option string.

(** [str(x)], as [format] applies it to its arguments. *)
Definition py_str (x : PyStr) : string :=
  match x with
  | Some s => s
  | None => "None"
  end.

Definition Tags := list (string * string).

Record ActiveDirectory := {
  ad_username : string;
  ad_password : string;
  ad_domain : string;
  ad_dns : string;
  ad_smb_server_name : string;
  ad_server_root_ca_certificate : string
}.

Record NetAppAccount := {
  account_id : PyStr;
  account_name : PyStr;
  account_location : string;
  account_tags : option Tags;
  active_directories : list ActiveDirectory
}.

Record CapacityPool := {
  pool_id : PyStr;
  pool_location : string;
  pool_service_level : string;
  pool_size : N
}.

Record MountTarget := {
  smb_server_fqdn : PyStr;
  ip_address : PyStr
}.

Inductive DataProtection := DataProtectionObject (settings : string).

Record Volume := {
  volume_id : PyStr;
  usage_threshold : N;
  creation_token : string;
  volume_location : string;
  volume_service_level : string;
  subnet_id : string;
  protocol_types : list string;
  data_protection : option DataProtection;
  security_style : string;
  mount_targets : option (list MountTarget)
}.

(** The constructors as the script calls them: keyword arguments it does
    not pass stay [None]. *)
Definition NetAppAccount_ (location : string) (tags : option Tags)
    (active_directories : list ActiveDirectory) : NetAppAccount :=
  {| account_id := None; account_name := None; account_location := location;
     account_tags := tags; active_directories := active_directories |}.

Definition CapacityPool_ (location service_level : string) (size : N)
    : CapacityPool :=
  {| pool_id := None; pool_location := location;
     pool_service_level := service_level; pool_size := size |}.

Definition Volume_ (usage_threshold : N) (creation_token location
    service_level subnet_id : string) (protocol_types : list string)
    (data_protection : option DataProtection) (security_style : string)
    : Volume :=
  {| volume_id := None; usage_threshold := usage_threshold;
     creation_token := creation_token; volume_location := location;
     volume_service_level := service_level; subnet_id := subnet_id;
     protocol_types := protocol_types; data_protection := data_protection;
     security_style := security_style; mount_targets := None |}.

(* ================================================================== *)
(** ** Events, outcomes and the environment *)

(** The exceptions of a run: the SDK's [CloudError], and any other class
    under its name. *)
Inductive Exn :=
| CloudError (message : string)
| OtherError (class_name : string) (message : string).

Definition IndexError (message : string) : Exn := OtherError "IndexError" message.
Definition TypeError (message : string) : Exn := OtherError "TypeError" message.

(** [ex.message] *)
Definition message (ex : Exn) : string :=
  match ex with
  | CloudError m => m
  | OtherError _ m => m
  end.

(** How a call ends: with a value, with an exception, or never. *)
Inductive Outcome (A : Type) :=
| Ok (a : A)
| Raised (e : Exn)
| Diverged.
Arguments Raised {A} e.
Arguments Diverged {A}.

(** The management operations the script invokes on the client. *)
Inductive Request :=
| AccountsCreateOrUpdate (body : NetAppAccount) (resource_group_name account_name : string)
| PoolsCreateOrUpdate (body : CapacityPool) (resource_group_name : string)
    (account_name : PyStr) (pool_name : string)
| VolumesCreateOrUpdate (body : Volume) (resource_group_name : string)
    (account_name pool_name : PyStr) (volume_name : string)
| VolumesDelete (resource_group_name : string) (account_name pool_name volume_name : PyStr)
| PoolsDelete (resource_group_name : string) (account_name pool_name : PyStr)
| AccountsDelete (resource_group_name : string) (account_name : PyStr).

(** What a finished long-running operation hands back. *)
Inductive Resource :=
| RAccount (a : NetAppAccount)
| RPool (p : CapacityPool)
| RVolume (v : Volume)
| RNone.

Inductive Event :=
| EvHeader (text : string)                      (* print_header *)
| EvConsole (text : string)                     (* console_output *)
| EvGetCredentials
| EvGetpass (prompt : string) (typed : string)
| EvGetRootCaCert (path : string) (content : string)
| EvCall (r : Request)                          (* the operation is invoked *)
| EvDone (r : Request) (res : Resource)         (* its poller has finished *)
| EvRaise (r : Request) (e : Exn)               (* the operation raised *)
| EvGet (resource_id : PyStr) (found : bool).   (* one poll of a resource *)

Definition Trace := list Event.

Record Credentials := { credentials_token : string }.

(** Everything the script talks to.  Each answer may depend on the events
    so far.  The three functions of [resource_uri_utils], which is not part
    of the sources, are taken as they come. *)
Record Env := {
  sdk_api_version : string;
  get_credentials_resp : Trace -> Outcome (Credentials * string);
  getpass_resp : Trace -> string -> Outcome string;
  get_root_ca_cert_resp : Trace -> string -> Outcome string;
  begin_resp : Trace -> Request -> Outcome unit;
  account_result_resp : Trace -> Request -> Outcome NetAppAccount;
  pool_result_resp : Trace -> Request -> Outcome CapacityPool;
  volume_result_resp : Trace -> Request -> Outcome Volume;
  wait_resp : Trace -> Request -> Outcome unit;
  get_resp : Trace -> PyStr -> bool;
  get_anf_capacity_pool : PyStr -> PyStr;
  get_anf_volume : PyStr -> PyStr;
  get_resource_value : PyStr -> string -> PyStr
}.

(* ================================================================== *)
(** ** The monad of the script *)

(** A computation reads the environment and the history and answers with
    the events it adds and its outcome. *)
Definition M (A : Type) := Env -> Trace -> Trace * Outcome A.

Definition ret {A} (a : A) : M A := fun _ _ => ([], Ok a).

Definition bind {A B} (m : M A) (k : A -> M B) : M B := fun env h =>
  match m env h with
  | (es, Ok a) => let (es', o) := k a env (h ++ es) in (es ++ es', o)
  | (es, Raised e) => (es, Raised e)
  | (es, Diverged) => (es, Diverged)
  end.

Declare Scope script_scope.
Delimit Scope script_scope with script.
Notation "x <- m ;; k" := (bind m (fun x => k))
  (at level 61, m at next level, right associativity) : script_scope.
Notation "' pat <- m ;; k" := (bind m (fun x => match x with pat => k end))
  (at level 61, pat pattern, m at next level, right associativity) : script_scope.
Notation "m ;; k" := (bind m (fun _ => k))
  (at level 61, right associativity) : script_scope.
Open Scope script_scope.

Definition emit (e : Event) : M unit := fun _ _ => ([e], Ok tt).

(** [raise ex] *)
Definition raise_ {A} (ex : Exn) : M A := fun _ _ => ([], Raised ex).

(** [try: body / except <class> as ex: handler ex]; [handler] answers
    [None] for an exception the clause does not match. *)
Definition try_except {A} (body : M A) (handler : Exn -> option (M A)) : M A :=
  fun env h =>
    match body env h with
    | (es, Raised ex) =>
        match handler ex with
        | Some recover => let (es', o) := recover env (h ++ es) in (es ++ es', o)
        | None => (es, Raised ex)
        end
    | r => r
    end.

Definition except_CloudError {A} (handler : Exn -> M A) (ex : Exn) : option (M A) :=
  match ex with
  | CloudError _ => Some (handler ex)
  | _ => None
  end.

(** [for x in xs: body x] *)
Fixpoint for_each {A} (xs : list A) (body : A -> M unit) : M unit :=
  match xs with
  | [] => ret tt
  | x :: xs' => body x ;; for_each xs' body
  end.

(** The whole run of a script from an empty history. *)
Definition exec {A} (m : M A) (env : Env) : Trace * Outcome A := m env [].

(* ------------------------------------------------------------------ *)
(** *** The collaborators as computations

    [sample_utils] and [resource_uri_utils] are not among the sources, and
    [getpass] and the SDK are libraries: a call to any of them is a question
    to the environment, recorded in the trace.  [print_header] and
    [console_output] only write to the console; constructing the client
    does not talk to the service. *)

Definition print_header (text : string) : M unit := emit (EvHeader text).
Definition console_output (text : string) : M unit := emit (EvConsole text).

Definition get_credentials : M (Credentials * string) := fun env h =>
  match get_credentials_resp env h with
  | Ok c => ([EvGetCredentials], Ok c)
  | Raised e => ([EvGetCredentials], Raised e)
  | Diverged => ([EvGetCredentials], Diverged)
  end.

Definition getpass (prompt : string) : M string := fun env h =>
  match getpass_resp env h prompt with
  | Ok typed => ([EvGetpass prompt typed], Ok typed)
  | Raised e => ([], Raised e)
  | Diverged => ([], Diverged)
  end.

Definition get_root_ca_cert (path : string) : M string := fun env h =>
  match get_root_ca_cert_resp env h path with
  | Ok content => ([EvGetRootCaCert path content], Ok content)
  | Raised e => ([], Raised e)
  | Diverged => ([], Diverged)
  end.

Record Client := {
  client_credentials : Credentials;
  client_subscription_id : string;
  api_version : string
}.

Definition AzureNetAppFilesManagementClient (credentials : Credentials)
    (subscription_id : string) : M Client := fun env _ =>
  ([], Ok {| client_credentials := credentials;
             client_subscription_id := subscription_id;
             api_version := sdk_api_version env |}).

(** The poller an operation returns. *)
Record LROPoller := { poller_request : Request }.

(** An operation of the client, [anf_client.<group>.<method>(...)]: it is
    invoked and returns its poller, or raises. *)
Definition invoke (anf_client : Client) (r : Request) : M LROPoller := fun env h =>
  match begin_resp env h r with
  | Ok _ => ([EvCall r], Ok {| poller_request := r |})
  | Raised e => ([EvCall r; EvRaise r e], Raised e)
  | Diverged => ([EvCall r], Diverged)
  end.

Definition await {A} (resp : Env -> Trace -> Request -> Outcome A)
    (wrap : A -> Resource) (poller : LROPoller) : M A := fun env h =>
  let r := poller_request poller in
  match resp env h r with
  | Ok a => ([EvDone r (wrap a)], Ok a)
  | Raised e => ([EvRaise r e], Raised e)
  | Diverged => ([], Diverged)
  end.

(** [poller.result()] for the three kinds of resource and [poller.wait()]. *)
Definition account_result := await account_result_resp RAccount.
Definition pool_result := await pool_result_resp RPool.
Definition volume_result := await volume_result_resp RVolume.
Definition wait := await wait_resp (fun _ : unit => RNone).

(** Modelled from the spec: [sample_utils.wait_for_no_anf_resource] is not
    among the sources; the spec has the teardown "polling until each
    disappears".  One poll asks the service whether the resource is still
    there; the loop ends when it is not.  [fuel] bounds the polls of a run
    of the model: a resource that outlives it leaves the call unfinished. *)
Fixpoint wait_for_no_anf_resource (fuel : nat) (anf_client : Client)
    (resource_id : PyStr) : M unit :=
  match fuel with
  | O => fun _ _ => ([], Diverged)
  | S fuel' =>
      fun env h =>
        if get_resp env h resource_id
        then bind (emit (EvGet resource_id true))
                  (fun _ => wait_for_no_anf_resource fuel' anf_client resource_id)
                  env h
        else emit (EvGet resource_id false) env h
  end.

(** The functions of [resource_uri_utils], read off the environment. *)
Definition resource_uri_utils_get_anf_capacity_pool (resource_uri : PyStr) : M PyStr :=
  fun env _ => ([], Ok (get_anf_capacity_pool env resource_uri)).
Definition resource_uri_utils_get_anf_volume (resource_uri : PyStr) : M PyStr :=
  fun env _ => ([], Ok (get_anf_volume env resource_uri)).
Definition resource_uri_utils_get_resource_value (resource_uri : PyStr)
    (resource_name : string) : M PyStr :=
  fun env _ => ([], Ok (get_resource_value env resource_uri resource_name)).

(** [xs[i]] on a value that is a list or [None]. *)
Definition getitem {A} (xs : option (list A)) (i : nat) : M A :=
  match xs with
  | None => raise_ (TypeError "'NoneType' object is not subscriptable")
  | Some l =>
      match nth_error l i with
      | Some x => ret x
      | None => raise_ (IndexError "list index out of range")
      end
  end.

(* ================================================================== *)
(** ** The functions of [example.py] *)

Definition create_account (anf_client : Client)
    (resource_group_name anf_account_name location
     domain_join_user_password root_cert : string)
    (tags : option Tags) : M NetAppAccount :=
  let active_directory :=
    {| ad_username := DOMAIN_JOIN_USERNAME;
       ad_password := domain_join_user_password;
       ad_domain := AD_FQDN;
       ad_dns := DNS_LIST;
       ad_smb_server_name := SMB_SERVERNAME_PREFIX;
       ad_server_root_ca_certificate := root_cert |} in
  let account_body := NetAppAccount_ location tags [active_directory] in
  poller <- invoke anf_client
              (AccountsCreateOrUpdate account_body resource_group_name
                                      anf_account_name) ;;
  account_result poller.

Definition create_capacity_pool (anf_client : Client)
    (resource_group_name : string) (anf_account_name : PyStr)
    (capacity_pool_name : string) (size : N) (location : string)
    (tags : option Tags) : M CapacityPool :=
  let capacity_pool_body :=
    CapacityPool_ location CAPACITY_POOL_SERVICE_LEVEL size in
  poller <- invoke anf_client
              (PoolsCreateOrUpdate capacity_pool_body resource_group_name
                                   anf_account_name capacity_pool_name) ;;
  pool_result poller.

Definition create_volume (anf_client : Client)
    (resource_group_name : string) (anf_account_name capacity_pool_name : PyStr)
    (volume_name : string) (volume_size : N) (subnet_id location : string)
    (data_protection : option DataProtection) (tags : option Tags) : M Volume :=
  let protocol_types := ["CIFS"; "NFSv3"] in
  let volume_body :=
    Volume_ volume_size volume_name location CAPACITY_POOL_SERVICE_LEVEL
            subnet_id protocol_types data_protection "ntfs" in
  poller <- invoke anf_client
              (VolumesCreateOrUpdate volume_body resource_group_name
                                     anf_account_name capacity_pool_name
                                     volume_name) ;;
  volume_result poller.

(** The body of [run_example].  The sample asks its user to edit the module
    constant [CLEANUP_RESOURCES], so the body is written for either value of
    the flag; [fuel] is the bound on the polls of each wait. *)
Definition run_example_with (fuel : nat) (cleanup_resources : bool) : M unit :=
  print_header ("Azure NetAppFiles Python SDK Samples - Sample project that creates a Dual-Protocol Volume using "
                ++ "the Azure NetApp Files SDK")%string ;;
  '(credentials, subscription_id) <- get_credentials ;;
  console_output "Instantiating a new Azure NetApp Files management client..." ;;
  anf_client <- AzureNetAppFilesManagementClient credentials subscription_id ;;
  console_output (format "Api Version: {}" [api_version anf_client]) ;;
  domain_join_user_password <-
    getpass "Please type Active Directory's user password that will domain join ANF's SMB server and press [ENTER]:" ;;
  cert_content <- get_root_ca_cert ROOT_CA_CERT_FULL_FILEPATH ;;
  console_output "Encoding certificate contents as base64 string..." ;;
  let encoded_cert_content := b64encode (str_encode cert_content) in
  console_output "Creating ANF Resources..." ;;
  console_output "Creating Account..." ;;
  anf_account <-
    try_except
      (anf_account <- create_account anf_client RESOURCE_GROUP_NAME
                        ANF_ACCOUNT_NAME LOCATION domain_join_user_password
                        (bytes_decode encoded_cert_content) None ;;
       console_output
         (format (TAB ++ "Account successfully created. Resource id: {}")%string
                 [py_str (account_id anf_account)]) ;;
       ret anf_account)
      (except_CloudError (fun ex =>
         console_output
           (format "An error occurred while creating Account: {}" [message ex]) ;;
         raise_ ex)) ;;
  console_output "Creating Capacity Pool..." ;;
  capacity_pool <-
    try_except
      (capacity_pool <- create_capacity_pool anf_client RESOURCE_GROUP_NAME
                          (account_name anf_account) CAPACITY_POOL_NAME
                          CAPACITY_POOL_SIZE LOCATION None ;;
       console_output
         (format (TAB ++ "Capacity Pool successfully created. Resource id: {}")%string
                 [py_str (pool_id capacity_pool)]) ;;
       ret capacity_pool)
      (except_CloudError (fun ex =>
         console_output
           (format "An error occurred while creating Capacity Pool: {}" [message ex]) ;;
         raise_ ex)) ;;
  console_output "Creating Volume with dual-protocol..." ;;
  let subnet_id :=
    format "/subscriptions/{}/resourceGroups/{}/providers/Microsoft.Network/virtualNetworks/{}/subnets/{}"
           [subscription_id; RESOURCE_GROUP_NAME; VNET_NAME; SUBNET_NAME] in
  volume <-
    try_except
      (pool_name <- resource_uri_utils_get_anf_capacity_pool (pool_id capacity_pool) ;;
       volume <- create_volume anf_client RESOURCE_GROUP_NAME
                   (account_name anf_account) pool_name VOLUME_NAME
                   VOLUME_SIZE subnet_id LOCATION None None ;;
       console_output
         (format (TAB ++ "Volume successfully created. Resource id: {}")%string
                 [py_str (volume_id volume)]) ;;
       ret volume)
      (except_CloudError (fun ex =>
         console_output
           (format "An error occurred while creating Volume: {}" [message ex]) ;;
         raise_ ex)) ;;
  console_output
    (format "Current Volume protocol types: {}" [str_of_list (protocol_types volume)]) ;;
  target <- getitem (mount_targets volume) 0 ;;
  console_output (format "SMB Server FQDN: {}" [py_str (smb_server_fqdn target)]) ;;
  target <- getitem (mount_targets volume) 0 ;;
  console_output (format "NFS IP Address: {}" [py_str (ip_address target)]) ;;
  (if cleanup_resources then
     console_output "Cleaning up resources" ;;
     console_output "Deleting Volumes..." ;;
     try_except
       (let volume_ids := [volume_id volume] in
        for_each volume_ids (fun volume_id =>
          pool_name <- resource_uri_utils_get_resource_value volume_id "capacityPools" ;;
          volume_name <- resource_uri_utils_get_anf_volume volume_id ;;
          console_output (format (TAB ++ "Deleting {}")%string [py_str volume_name]) ;;
          poller <- invoke anf_client
                      (VolumesDelete RESOURCE_GROUP_NAME (account_name anf_account)
                                     pool_name volume_name) ;;
          wait poller ;;
          wait_for_no_anf_resource fuel anf_client volume_id ;;
          console_output
            (format (TAB ++ TAB ++ "Successfully deleted Volume: {}")%string
                    [py_str volume_id])))
       (except_CloudError (fun ex =>
          console_output
            (format "An error occurred while deleting volumes: {}" [message ex]) ;;
          raise_ ex)) ;;
     console_output "Deleting Capacity Pools..." ;;
     try_except
       (let pool_ids := [pool_id capacity_pool] in
        for_each pool_ids (fun pool_id =>
          pool_name <- resource_uri_utils_get_anf_capacity_pool pool_id ;;
          console_output (format (TAB ++ "Deleting {}")%string [py_str pool_name]) ;;
          poller <- invoke anf_client
                      (PoolsDelete RESOURCE_GROUP_NAME (account_name anf_account)
                                   pool_name) ;;
          wait poller ;;
          wait_for_no_anf_resource fuel anf_client pool_id ;;
          console_output
            (format (TAB ++ TAB ++ "Successfully deleted Capacity Pool: {}")%string
                    [py_str pool_id])))
       (except_CloudError (fun ex =>
          console_output
            (format "An error occurred while deleting capacity pools: {}" [message ex]) ;;
          raise_ ex)) ;;
     console_output "Deleting Account..." ;;
     try_except
       (console_output
          (format (TAB ++ "Deleting {}")%string [py_str (account_name anf_account)]) ;;
        poller <- invoke anf_client
                    (AccountsDelete RESOURCE_GROUP_NAME (account_name anf_account)) ;;
        wait poller ;;
        console_output
          (format (TAB ++ TAB ++ "Successfully deleted Account: {}")%string
                  [py_str (account_id anf_account)]))
       (except_CloudError (fun ex =>
          console_output
            (format "An error occurred while deleting accounts: {}" [message ex]) ;;
          raise_ ex))
   else ret tt) ;;
  console_output "ANF Dual-Protocol sample has completed successfully".

(** [run_example()] with the flag as the module has it. *)
Definition run_example (fuel : nat) : M unit :=
  run_example_with fuel CLEANUP_RESOURCES.

(* ================================================================== *)
(** ** Reading a trace *)

Inductive Step :=
| CreateAccount | CreatePool | CreateVolume
| DeleteVolume | DeletePool | DeleteAccount.

Definition step_of (r : Request) : Step :=
  match r with
  | AccountsCreateOrUpdate _ _ _ => CreateAccount
  | PoolsCreateOrUpdate _ _ _ _ => CreatePool
  | VolumesCreateOrUpdate _ _ _ _ _ => CreateVolume
  | VolumesDelete _ _ _ _ => DeleteVolume
  | PoolsDelete _ _ _ => DeletePool
  | AccountsDelete _ _ => DeleteAccount
  end.

Definition is_delete (r : Request) : bool :=
  match step_of r with
  | DeleteVolume | DeletePool | DeleteAccount => true
  | _ => false
  end.

(** The operations invoked during a run, in order. *)
Fixpoint api_calls (tr : Trace) : list Request :=
  match tr with
  | [] => []
  | EvCall r :: rest => r :: api_calls rest
  | _ :: rest => api_calls rest
  end.

(** The starts and completions of the long-running operations. *)
Inductive Mark := Started (s : Step) | Completed (s : Step).

Fixpoint lro_marks (tr : Trace) : list Mark :=
  match tr with
  | [] => []
  | EvCall r :: rest => Started (step_of r) :: lro_marks rest
  | EvDone r _ :: rest => Completed (step_of r) :: lro_marks rest
  | _ :: rest => lro_marks rest
  end.

(** What the finished operations handed back, in order. *)
Fixpoint lro_results (tr : Trace) : list Resource :=
  match tr with
  | [] => []
  | EvDone _ res :: rest => res :: lro_results rest
  | _ :: rest => lro_results rest
  end.

(** What the teardown does to the service: its delete operations and every
    poll. *)
Definition is_teardown_event (e : Event) : bool :=
  match e with
  | EvCall r => is_delete r
  | EvDone r _ => is_delete r
  | EvGet _ _ => true
  | _ => false
  end.

Fixpoint teardown_events (tr : Trace) : Trace :=
  match tr with
  | [] => []
  | e :: rest =>
      if is_teardown_event e then e :: teardown_events rest
      else teardown_events rest
  end.

(** The answers typed at the prompt and the certificate files read. *)
Fixpoint prompted (tr : Trace) : list string :=
  match tr with
  | [] => []
  | EvGetpass _ typed :: rest => typed :: prompted rest
  | _ :: rest => prompted rest
  end.

Fixpoint certificates_read (tr : Trace) : list (string * string) :=
  match tr with
  | [] => []
  | EvGetRootCaCert path content :: rest => (path, content) :: certificates_read rest
  | _ :: rest => certificates_read rest
  end.

(** [P e rest] at every event [e] of a trace, [rest] being what follows. *)
Fixpoint at_every_event (P : Event -> Trace -> Prop) (tr : Trace) : Prop :=
  match tr with
  | [] => True
  | e :: rest => P e rest /\ at_every_event P rest
  end.

(* ================================================================== *)
(** ** What the claims speak of *)

(** [l] is an initial segment of [full]. *)
Definition prefix_of {A} (l full : list A) : Prop := exists rest, full = l ++ rest.

Definition creation_schedule : list Mark :=
  [Started CreateAccount; Completed CreateAccount;
   Started CreatePool; Completed CreatePool;
   Started CreateVolume; Completed CreateVolume].
Definition teardown_schedule : list Mark :=
  [Started DeleteVolume; Completed DeleteVolume;
   Started DeletePool; Completed DeletePool;
   Started DeleteAccount; Completed DeleteAccount].
Definition schedule (cleanup_resources : bool) : list Mark :=
  creation_schedule ++ (if cleanup_resources then teardown_schedule else []).

(** The line the script prints when a step fails with a cloud error. *)
Definition error_template (s : Step) : string :=
  match s with
  | CreateAccount => "An error occurred while creating Account: {}"
  | CreatePool => "An error occurred while creating Capacity Pool: {}"
  | CreateVolume => "An error occurred while creating Volume: {}"
  | DeleteVolume => "An error occurred while deleting volumes: {}"
  | DeletePool => "An error occurred while deleting capacity pools: {}"
  | DeleteAccount => "An error occurred while deleting accounts: {}"
  end.

(** What follows the invocation of an operation: its completion, or the
    exception that ends the run, or nothing when it never returns. *)
Definition awaited (out : Outcome unit) (e : Event) (rest : Trace) : Prop :=
  match e with
  | EvCall r =>
      (exists res rest', rest = EvDone r res :: rest') \/
      (exists ex rest', rest = EvRaise r ex :: rest' /\ out = Raised ex /\ api_calls rest' = []) \/
      (rest = [] /\ out = Diverged)
  | _ => True
  end.

(** What follows a cloud error raised by an operation: the line of the
    failed step, and the run ends with the error. *)
Definition logged_and_reraised (out : Outcome unit) (e : Event) (rest : Trace) : Prop :=
  match e with
  | EvRaise r (CloudError msg) =>
      rest = [EvConsole (format (error_template (step_of r)) [msg])] /\
      out = Raised (CloudError msg)
  | _ => True
  end.

(** After the volume comes back: the two lines printed, then the first
    mount target read and printed twice, or the failed access. *)
Definition mount_target_read (out : Outcome unit) (e : Event) (rest : Trace) : Prop :=
  match e with
  | EvDone r (RVolume v) =>
      exists rest',
        rest = EvConsole (format (TAB ++ "Volume successfully created. Resource id: {}")%string
                                 [py_str (volume_id v)])
               :: EvConsole (format "Current Volume protocol types: {}"
                                    [str_of_list (protocol_types v)])
               :: rest' /\
        match mount_targets v with
        | Some (target :: _) =>
            exists rest'',
              rest' = EvConsole (format "SMB Server FQDN: {}" [py_str (smb_server_fqdn target)])
                      :: EvConsole (format "NFS IP Address: {}" [py_str (ip_address target)])
                      :: rest''
        | Some [] => rest' = [] /\ out = Raised (IndexError "list index out of range")
        | None => rest' = [] /\ out = Raised (TypeError "'NoneType' object is not subscriptable")
        end
  | _ => True
  end.

(** The teardown as the script runs it on the resources [a], [p], [v] it
    created: [n1] and [n2] polls find the volume and the pool still there. *)
Definition teardown_plan (env : Env) (a : NetAppAccount) (p : CapacityPool)
    (v : Volume) (n1 n2 : nat) : Trace :=
  let delete_volume :=
    VolumesDelete RESOURCE_GROUP_NAME (account_name a)
                  (get_resource_value env (volume_id v) "capacityPools")
                  (get_anf_volume env (volume_id v)) in
  let delete_pool :=
    PoolsDelete RESOURCE_GROUP_NAME (account_name a)
                (get_anf_capacity_pool env (pool_id p)) in
  let delete_account := AccountsDelete RESOURCE_GROUP_NAME (account_name a) in
  EvCall delete_volume :: EvDone delete_volume RNone
  :: repeat (EvGet (volume_id v) true) n1
  ++ EvGet (volume_id v) false
  :: EvCall delete_pool :: EvDone delete_pool RNone
  :: repeat (EvGet (pool_id p) true) n2
  ++ EvGet (pool_id p) false
  :: EvCall delete_account :: EvDone delete_account RNone
  :: [].

(* ================================================================== *)
(** ** A logic of runs *)

(** [ensures env m Q]: whatever happened before, the events [m] adds and
    its outcome satisfy [Q].  The events are handed to [Q] as the function
    that puts them in front of what follows, so that a sequence of commands
    yields its events as one list. *)
Definition ensures {A} (env : Env) (m : M A)
    (Q : (Trace -> Trace) -> Outcome A -> Prop) : Prop :=
  forall h, exists front,
    (forall rest, front rest = fst (m env h) ++ rest) /\ Q front (snd (m env h)).

(* ================================================================== *)
(** ** A sample service

  A small deterministic environment on which the model can be run: every
  operation succeeds unless told otherwise, identifiers follow the
  service's resource paths, and a deleted resource stays visible for one
  poll. *)
Module Sample.

(** The text of [s] cut at every ["/"]. *)
Fixpoint segments_from (s : string) (current : string) : list string :=
  match s with
  | EmptyString => [current]
  | String c rest =>
      if Ascii.eqb c "/"%char then current :: segments_from rest EmptyString
      else segments_from rest (current ++ String c EmptyString)%string
  end.
Definition segments (s : string) : list string := segments_from s EmptyString.

Fixpoint value_after (name : string) (segs : list string) : PyStr :=
  match segs with
  | [] => None
  | key :: rest =>
      match rest with
      | value :: _ => if String.eqb key name then Some value else value_after name rest
      | [] => None
      end
  end.

Definition resource_value (resource_uri : PyStr) (resource_name : string) : PyStr :=
  match resource_uri with
  | Some uri => value_after resource_name (segments uri)
  | None => None
  end.

Definition account_path (rg name : string) : string :=
  ("/subscriptions/sub-0001/resourceGroups/" ++ rg
   ++ "/providers/Microsoft.NetApp/netAppAccounts/" ++ name)%string.

Definition the_target : MountTarget :=
  {| smb_server_fqdn := Some "testsmb-1a2b.testdomain.local";
     ip_address := Some "10.0.1.4" |}.

Definition last_is_poll (h : Trace) : bool :=
  match rev h with
  | EvGet _ _ :: _ => true
  | _ => false
  end.

(** [failing r] is the exception an operation raises from its poller, if
    any; [targets] are the mount targets of the created volume. *)
Definition service (failing : Request -> option Exn)
    (targets : option (list MountTarget)) : Env :=
  let finish {A} (r : Request) (a : A) : Outcome A :=
    match failing r with
    | Some e => Raised e
    | None => Ok a
    end in
  {| sdk_api_version := "2020-08-01";
     get_credentials_resp := fun _ => Ok ({| credentials_token := "token" |}, "sub-0001");
     getpass_resp := fun _ _ => Ok "S3cret!";
     get_root_ca_cert_resp := fun _ _ => Ok "foobar";
     begin_resp := fun _ _ => Ok tt;
     account_result_resp := fun _ r =>
       match r with
       | AccountsCreateOrUpdate body rg name =>
           finish r
             {| account_id := Some (account_path rg name);
                account_name := Some name;
                account_location := account_location body;
                account_tags := account_tags body;
                active_directories := active_directories body |}
       | _ => Raised (OtherError "ValueError" "not an account operation")
       end;
     pool_result_resp := fun _ r =>
       match r with
       | PoolsCreateOrUpdate body rg acc pool =>
           finish r
             {| pool_id := Some (account_path rg (py_str acc)
                                 ++ "/capacityPools/" ++ pool)%string;
                pool_location := pool_location body;
                pool_service_level := pool_service_level body;
                pool_size := pool_size body |}
       | _ => Raised (OtherError "ValueError" "not a pool operation")
       end;
     volume_result_resp := fun _ r =>
       match r with
       | VolumesCreateOrUpdate body rg acc pool vol =>
           finish r
             {| volume_id := Some (account_path rg (py_str acc)
                                   ++ "/capacityPools/" ++ py_str pool
                                   ++ "/volumes/" ++ vol)%string;
                usage_threshold := usage_threshold body;
                creation_token := creation_token body;
                volume_location := volume_location body;
                volume_service_level := volume_service_level body;
                subnet_id := subnet_id body;
                protocol_types := protocol_types body;
                data_protection := data_protection body;
                security_style := security_style body;
                mount_targets := targets |}
       | _ => Raised (OtherError "ValueError" "not a volume operation")
       end;
     wait_resp := fun _ r => finish r tt;
     get_resp := fun h _ => negb (last_is_poll h);
     get_anf_capacity_pool := fun uri => resource_value uri "capacityPools";
     get_anf_volume := fun uri => resource_value uri "volumes";
     get_resource_value := resource_value |}.

Definition no_failure (r : Request) : option Exn := None.

Definition healthy : Env := service no_failure (Some [the_target]).

(** The operation of step [s] ends in a cloud error. *)
Definition step_eqb (s s' : Step) : bool :=
  match s, s' with
  | CreateAccount, CreateAccount | CreatePool, CreatePool
  | CreateVolume, CreateVolume | DeleteVolume, DeleteVolume
  | DeletePool, DeletePool | DeleteAccount, DeleteAccount => true
  | _, _ => false
  end.

Definition conflict_at (s : Step) (r : Request) : option Exn :=
  if step_eqb (step_of r) s then Some (CloudError "Conflict") else None.

Definition failing (s : Step) : Env := service (conflict_at s) (Some [the_target]).

(** The pool cannot be deleted. *)
Definition conflicting : Env := failing DeletePool.

(** The volume comes back without mount targets. *)
Definition unmounted : Env := service no_failure (Some []).

(** The resources the healthy service hands back to the script. *)
Definition healthy_results : list Resource :=
  Eval vm_compute in lro_results (fst (exec (run_example_with 3 true) healthy)).

Definition created_account : NetAppAccount :=
  match healthy_results with
  | RAccount a :: _ => a
  | _ => NetAppAccount_ EmptyString None []
  end.

Definition created_pool : CapacityPool :=
  match healthy_results with
  | _ :: RPool p :: _ => p
  | _ => CapacityPool_ EmptyString EmptyString 0
  end.

Definition created_volume : Volume :=
  match healthy_results with
  | _ :: _ :: RVolume v :: _ => v
  | _ => Volume_ 0 EmptyString EmptyString EmptyString EmptyString [] None EmptyString
  end.

(** The [i]-th event of a trace, when it is the invocation, the completion
    or the failure of an operation. *)
Definition request_at (tr : Trace) (i : nat) : Request :=
  match nth_error tr i with
  | Some (EvCall r) => r
  | Some (EvDone r _) => r
  | Some (EvRaise r _) => r
  | _ => AccountsDelete EmptyString None
  end.

End Sample.

(* ================================================================== *)
(** ** Further readings of a run *)

(** The text [run_example] hands to [print_header] and its last line. *)
Definition HEADER : string :=
  ("Azure NetAppFiles Python SDK Samples - Sample project that creates a Dual-Protocol Volume using "
   ++ "the Azure NetApp Files SDK")%string.

Definition success_line : string :=
  "ANF Dual-Protocol sample has completed successfully".

(** [s] is a final segment of [l]. *)
Definition suffix_of {A} (s l : list A) : Prop := exists pre, l = pre ++ s.

(** The console line in front of each operation: the fixed line of a
    creation, the name sent with a deletion. *)
Definition announcement (r : Request) : string :=
  match r with
  | AccountsCreateOrUpdate _ _ _ => "Creating Account..."
  | PoolsCreateOrUpdate _ _ _ _ => "Creating Capacity Pool..."
  | VolumesCreateOrUpdate _ _ _ _ _ => "Creating Volume with dual-protocol..."
  | VolumesDelete _ _ _ volume_name =>
      format (TAB ++ "Deleting {}")%string [py_str volume_name]
  | PoolsDelete _ _ pool_name =>
      format (TAB ++ "Deleting {}")%string [py_str pool_name]
  | AccountsDelete _ account_name =>
      format (TAB ++ "Deleting {}")%string [py_str account_name]
  end.

(** An exception of an operation that is not a cloud error ends the run
    on the spot. *)
Definition propagated_unlogged (out : Outcome unit) (e : Event) (rest : Trace) : Prop :=
  match e with
  | EvRaise r (OtherError class_name msg) =>
      rest = [] /\ out = Raised (OtherError class_name msg)
  | _ => True
  end.

(** An operation comes right after its announcement. *)
Definition announced (e : Event) (rest : Trace) : Prop :=
  match rest with
  | EvCall r :: _ => e = EvConsole (announcement r)
  | _ => True
  end.

(** A returned account or pool is reported at once, with its id. *)
Definition reported (e : Event) (rest : Trace) : Prop :=
  match e with
  | EvDone _ (RAccount a) =>
      exists rest',
        rest = EvConsole (format (TAB ++ "Account successfully created. Resource id: {}")%string
                                 [py_str (account_id a)])
               :: rest'
  | EvDone _ (RPool p) =>
      exists rest',
        rest = EvConsole (format (TAB ++ "Capacity Pool successfully created. Resource id: {}")%string
                                 [py_str (pool_id p)])
               :: rest'
  | _ => True
  end.

(** The last line of the script is printed last, by a run that ends
    normally. *)
Definition success_is_last (out : Outcome unit) (e : Event) (rest : Trace) : Prop :=
  match e with
  | EvConsole text => text = success_line -> rest = [] /\ out = Ok tt
  | _ => True
  end.

Definition run_discipline (out : Outcome unit) (e : Event) (rest : Trace) : Prop :=
  propagated_unlogged out e rest /\ announced e rest /\
  reported e rest /\ success_is_last out e rest.

Definition starts_with_header (tr : Trace) : Prop :=
  match tr with
  | EvHeader text :: _ => text = HEADER
  | _ => False
  end.

(** Where the script sends a request: the resource group, the names and
    the location of the module constants, without tags or data
    protection. *)
Definition well_addressed (r : Request) : Prop :=
  match r with
  | AccountsCreateOrUpdate body rg name =>
      rg = RESOURCE_GROUP_NAME /\ name = ANF_ACCOUNT_NAME /\
      account_location body = LOCATION /\ account_tags body = None
  | PoolsCreateOrUpdate body rg _ name =>
      rg = RESOURCE_GROUP_NAME /\ name = CAPACITY_POOL_NAME /\
      pool_location body = LOCATION
  | VolumesCreateOrUpdate body rg _ _ name =>
      rg = RESOURCE_GROUP_NAME /\ name = VOLUME_NAME /\
      volume_location body = LOCATION /\ data_protection body = None
  | VolumesDelete rg _ _ _ => rg = RESOURCE_GROUP_NAME
  | PoolsDelete rg _ _ => rg = RESOURCE_GROUP_NAME
  | AccountsDelete rg _ => rg = RESOURCE_GROUP_NAME
  end.

(** The ranges the docstrings give: a pool from 4 TiB to 500 TiB, a volume
    from 100 GiB to 100 TiB. *)
Definition within_documented_sizes (r : Request) : Prop :=
  match r with
  | PoolsCreateOrUpdate body _ _ _ =>
      (4398046511104 <= pool_size body <= 549755813888000)%N /\
      pool_size body = (4 * 2 ^ 40)%N
  | VolumesCreateOrUpdate body _ _ _ _ =>
      (107374182400 <= usage_threshold body <= 109951162777600)%N /\
      usage_threshold body = (100 * 2 ^ 30)%N /\
      (usage_threshold body <= CAPACITY_POOL_SIZE)%N
  | _ => True
  end.

(* ------------------------------------------------------------------ *)
(** *** Reading base64 text back

    [b64decode] inverts [b64encode] on the text the encoder produces; it is
    the reference against which the encoder is checked, not part of the
    script. *)

Fixpoint index_in (c : byte) (l : list byte) : N :=
  match l with
  | [] => 0
  | x :: l' => if Byte.eqb x c then 0 else N.succ (index_in c l')
  end.

Definition b64_index (c : byte) : N := index_in c b64_alphabet.

Definition byte_of_N (n : N) : byte :=
  match Byte.of_N n with
  | Some b => b
  | None => x00
  end.

Fixpoint b64decode (text : bytes) : bytes :=
  match text with
  | c1 :: c2 :: c3 :: c4 :: rest =>
      let i1 := b64_index c1 in
      let i2 := b64_index c2 in
      let i3 := b64_index c3 in
      let i4 := b64_index c4 in
      let b1 := byte_of_N (N.lor (N.shiftl i1 2) (N.shiftr i2 4)) in
      let b2 := byte_of_N (N.lor (N.shiftl (N.land i2 15) 4) (N.shiftr i3 2)) in
      let b3 := byte_of_N (N.lor (N.shiftl (N.land i3 3) 6) i4) in
      if Byte.eqb c4 b64_pad then
        if Byte.eqb c3 b64_pad then [b1] else [b1; b2]
      else b1 :: b2 :: b3 :: b64decode rest
  | _ => []
  end.

(** The values of a byte, and a test on all of them. *)
Definition byte_values : list N := map N.of_nat (seq 0 256).
Definition for_all_bytes (test : N -> bool) : bool := forallb test byte_values.

(** More services for the sample runs. *)
Module Scenario.

(** The creation of the volume ends in an exception that is not a cloud
    error. *)
Definition timeout_at_volume (r : Request) : option Exn :=
  match r with
  | VolumesCreateOrUpdate _ _ _ _ _ => Some (OtherError "TimeoutError" "timed out")
  | _ => None
  end.

Definition timing_out : Env := Sample.service timeout_at_volume (Some [Sample.the_target]).

End Scenario.

(* ================================================================== *)
(** ** Lemmas on traces *)

Lemma at_every_event_split (P : Event -> Trace -> Prop) (tr : Trace) :
  at_every_event P tr ->
  forall pre e post, tr = pre ++ e :: post -> P e post.
Proof.
  intros Hall pre. revert tr Hall.
  induction pre as [|x pre IH]; intros tr Hall e post ->; cbn in Hall.
  - apply Hall.
  - destruct Hall as [_ Hall]. eapply IH; [exact Hall | reflexivity].
Qed.

Lemma at_every_event_polls (P : Event -> Trace -> Prop) id n (tr : Trace) :
  (forall rest, P (EvGet id true) rest) ->
  at_every_event P tr ->
  at_every_event P (repeat (EvGet id true) n ++ tr).
Proof.
  intros Hp Htr. induction n as [|n IH]; cbn; auto.
Qed.

(** Polls are invisible to the readers of operations. *)
Lemma api_calls_polls id b n rest :
  api_calls (repeat (EvGet id b) n ++ rest) = api_calls rest.
Proof. induction n; cbn; auto. Qed.

Lemma lro_marks_polls id b n rest :
  lro_marks (repeat (EvGet id b) n ++ rest) = lro_marks rest.
Proof. induction n; cbn; auto. Qed.

Lemma lro_results_polls id b n rest :
  lro_results (repeat (EvGet id b) n ++ rest) = lro_results rest.
Proof. induction n; cbn; auto. Qed.

Lemma prompted_polls id b n rest :
  prompted (repeat (EvGet id b) n ++ rest) = prompted rest.
Proof. induction n; cbn; auto. Qed.

Lemma certificates_read_polls id b n rest :
  certificates_read (repeat (EvGet id b) n ++ rest) = certificates_read rest.
Proof. induction n; cbn; auto. Qed.

Lemma teardown_events_polls id b n rest :
  teardown_events (repeat (EvGet id b) n ++ rest)
  = repeat (EvGet id b) n ++ teardown_events rest.
Proof. induction n as [|n IH]; cbn; [|rewrite IH]; auto. Qed.

(** The wait polls while the resource is found and returns at the first
    poll that does not find it; with the polls of the model used up it has
    not returned. *)
Lemma wait_for_no_anf_resource_polls fuel anf_client id env h :
  (exists n, n < fuel /\
     wait_for_no_anf_resource fuel anf_client id env h
     = (repeat (EvGet id true) n ++ [EvGet id false], Ok tt))
  \/ wait_for_no_anf_resource fuel anf_client id env h
     = (repeat (EvGet id true) fuel, Diverged).
Proof.
  revert h. induction fuel as [|fuel IH]; intros h; cbn.
  - right. reflexivity.
  - destruct (get_resp env h id).
    + unfold bind, emit.
      destruct (IH (h ++ [EvGet id true])) as [[n [Hn ->]] | ->].
      * left. exists (S n). split; [lia | reflexivity].
      * right. reflexivity.
    + left. exists 0. split; [lia | reflexivity].
Qed.

(** A resource that is gone at the poll after [n] polls that found it ends
    the wait there, whenever the model allows more than [n] polls. *)
Lemma wait_for_no_anf_resource_returns n : forall fuel anf_client id env h,
  (forall k, k < n -> get_resp env (h ++ repeat (EvGet id true) k) id = true) ->
  get_resp env (h ++ repeat (EvGet id true) n) id = false ->
  n < fuel ->
  wait_for_no_anf_resource fuel anf_client id env h
  = (repeat (EvGet id true) n ++ [EvGet id false], Ok tt).
Proof.
  induction n as [|n IH]; intros fuel anf_client id env h Hfound Hgone Hfuel;
    (destruct fuel as [|fuel]; [lia | ]); cbn.
  - cbn in Hgone. rewrite app_nil_r in Hgone. rewrite Hgone. reflexivity.
  - pose proof (Hfound 0 ltac:(lia)) as H0. cbn in H0. rewrite app_nil_r in H0.
    rewrite H0. unfold bind, emit.
    rewrite (IH fuel anf_client id env (h ++ [EvGet id true])).
    + reflexivity.
    + intros k Hk. rewrite <- app_assoc. apply (Hfound (S k)). lia.
    + rewrite <- app_assoc. exact Hgone.
    + lia.
Qed.

Lemma prefix_of_nil {A} (full : list A) : prefix_of [] full.
Proof. exists full. reflexivity. Qed.

Lemma prefix_of_cons {A} (x : A) l full : prefix_of l full -> prefix_of (x :: l) (x :: full).
Proof. intros [rest ->]. exists rest. reflexivity. Qed.

Lemma prefix_of_app {A} (front l full : list A) :
  prefix_of l full -> prefix_of (front ++ l) (front ++ full).
Proof. intros [rest ->]. exists rest. now rewrite app_assoc. Qed.


(* ================================================================== *)
(** ** The rules of the logic *)

Section Rules.
Variable env : Env.

Lemma ensures_exec {A} (m : M A) (P : Trace -> Outcome A -> Prop) :
  ensures env m (fun front => P (front [])) ->
  forall tr out, exec m env = (tr, out) -> P tr out.
Proof.
  intros H tr out E. destruct (H []) as [front [Hfront HP]].
  unfold exec in E. rewrite E in *. cbn in *.
  rewrite Hfront, app_nil_r in HP. exact HP.
Qed.

(** A command whose events and outcome do not depend on the history. *)
Lemma ensures_const {A} (m : M A) es o (Q : (Trace -> Trace) -> Outcome A -> Prop) :
  (forall h, m env h = (es, o)) ->
  Q (fun rest => es ++ rest) o -> ensures env m Q.
Proof.
  intros Hm HQ h. exists (fun rest => es ++ rest). rewrite Hm. split; auto.
Qed.

Lemma ensures_ret {A} (a : A) (Q : (Trace -> Trace) -> Outcome A -> Prop) :
  Q (fun rest => rest) (Ok a) -> ensures env (ret a) Q.
Proof. intros H. apply ensures_const with (es := []) (o := Ok a); auto. Qed.

Lemma ensures_emit e (Q : (Trace -> Trace) -> Outcome unit -> Prop) :
  Q (fun rest => e :: rest) (Ok tt) -> ensures env (emit e) Q.
Proof. intros H. apply ensures_const with (es := [e]) (o := Ok tt); auto. Qed.

Lemma ensures_raise {A} ex (Q : (Trace -> Trace) -> Outcome A -> Prop) :
  Q (fun rest => rest) (Raised ex) -> ensures env (raise_ ex) Q.
Proof. intros H. apply ensures_const with (es := []) (o := Raised ex); auto. Qed.

Lemma ensures_bind {A B} (m : M A) (k : A -> M B)
    (Q : (Trace -> Trace) -> Outcome B -> Prop) :
  ensures env m (fun front o =>
    match o with
    | Ok a => ensures env (k a) (fun front' o' => Q (fun rest => front (front' rest)) o')
    | Raised e => Q front (Raised e)
    | Diverged => Q front Diverged
    end) ->
  ensures env (bind m k) Q.
Proof.
  intros H h. destruct (H h) as [front [Hfront HQ]]. unfold bind.
  destruct (m env h) as [es [a | e |]]; cbn in *; eauto.
  destruct (HQ (h ++ es)) as [front' [Hfront' HQ']].
  destruct (k a env (h ++ es)) as [es' o']; cbn in *.
  exists (fun rest => front (front' rest)). split; [ | exact HQ'].
  intros rest. now rewrite Hfront, Hfront', app_assoc.
Qed.

Lemma ensures_try_except {A} (body : M A) handler
    (Q : (Trace -> Trace) -> Outcome A -> Prop) :
  ensures env body (fun front o =>
    match o with
    | Ok a => Q front (Ok a)
    | Raised (CloudError msg) =>
        ensures env (handler (CloudError msg))
                (fun front' o' => Q (fun rest => front (front' rest)) o')
    | Raised (OtherError c msg) => Q front (Raised (OtherError c msg))
    | Diverged => Q front Diverged
    end) ->
  ensures env (try_except body (except_CloudError handler)) Q.
Proof.
  intros H h. destruct (H h) as [front [Hfront HQ]]. unfold try_except.
  destruct (body env h) as [es [a | [msg | c msg] |]]; cbn in *; eauto.
  destruct (HQ (h ++ es)) as [front' [Hfront' HQ']].
  destruct (handler (CloudError msg) env (h ++ es)) as [es' o']; cbn in *.
  exists (fun rest => front (front' rest)). split; [ | exact HQ'].
  intros rest. now rewrite Hfront, Hfront', app_assoc.
Qed.

(** A command that asks the environment once. *)
Lemma ensures_cases {A} (m : M A) (Q : (Trace -> Trace) -> Outcome A -> Prop) :
  (forall h, exists es, fst (m env h) = es /\ Q (fun rest => es ++ rest) (snd (m env h))) ->
  ensures env m Q.
Proof.
  intros H h. destruct (H h) as [es [Hes HQ]].
  exists (fun rest => es ++ rest). rewrite Hes. split; auto.
Qed.

Lemma ensures_get_credentials (Q : (Trace -> Trace) -> Outcome (Credentials * string) -> Prop) :
  (forall c, Q (fun rest => EvGetCredentials :: rest) (Ok c)) ->
  (forall e, Q (fun rest => EvGetCredentials :: rest) (Raised e)) ->
  Q (fun rest => EvGetCredentials :: rest) Diverged ->
  ensures env get_credentials Q.
Proof.
  intros H1 H2 H3. apply ensures_cases. intros h. unfold get_credentials.
  destruct (get_credentials_resp env h); cbn;
    (eexists; split; [reflexivity | first [apply H1 | apply H2 | exact H3]]).
Qed.

Lemma ensures_getpass prompt (Q : (Trace -> Trace) -> Outcome string -> Prop) :
  (forall typed, Q (fun rest => EvGetpass prompt typed :: rest) (Ok typed)) ->
  (forall e, Q (fun rest => rest) (Raised e)) ->
  Q (fun rest => rest) Diverged ->
  ensures env (getpass prompt) Q.
Proof.
  intros H1 H2 H3. apply ensures_cases. intros h. unfold getpass.
  destruct (getpass_resp env h prompt); cbn;
    (eexists; split; [reflexivity | first [apply H1 | apply H2 | exact H3]]).
Qed.

Lemma ensures_get_root_ca_cert path (Q : (Trace -> Trace) -> Outcome string -> Prop) :
  (forall content, Q (fun rest => EvGetRootCaCert path content :: rest) (Ok content)) ->
  (forall e, Q (fun rest => rest) (Raised e)) ->
  Q (fun rest => rest) Diverged ->
  ensures env (get_root_ca_cert path) Q.
Proof.
  intros H1 H2 H3. apply ensures_cases. intros h. unfold get_root_ca_cert.
  destruct (get_root_ca_cert_resp env h path); cbn;
    (eexists; split; [reflexivity | first [apply H1 | apply H2 | exact H3]]).
Qed.

Lemma ensures_client credentials subscription_id
    (Q : (Trace -> Trace) -> Outcome Client -> Prop) :
  Q (fun rest => rest)
    (Ok {| client_credentials := credentials;
           client_subscription_id := subscription_id;
           api_version := sdk_api_version env |}) ->
  ensures env (AzureNetAppFilesManagementClient credentials subscription_id) Q.
Proof. intros H. eapply ensures_const with (es := []); [reflexivity | exact H]. Qed.

Lemma ensures_invoke anf_client r (Q : (Trace -> Trace) -> Outcome LROPoller -> Prop) :
  Q (fun rest => EvCall r :: rest) (Ok {| poller_request := r |}) ->
  (forall e, Q (fun rest => EvCall r :: EvRaise r e :: rest) (Raised e)) ->
  Q (fun rest => EvCall r :: rest) Diverged ->
  ensures env (invoke anf_client r) Q.
Proof.
  intros H1 H2 H3. apply ensures_cases. intros h. unfold invoke.
  destruct (begin_resp env h r); cbn;
    (eexists; split; [reflexivity | first [apply H1 | apply H2 | exact H3]]).
Qed.

Lemma ensures_await {A} resp (wrap : A -> Resource) r
    (Q : (Trace -> Trace) -> Outcome A -> Prop) :
  (forall a, Q (fun rest => EvDone r (wrap a) :: rest) (Ok a)) ->
  (forall e, Q (fun rest => EvRaise r e :: rest) (Raised e)) ->
  Q (fun rest => rest) Diverged ->
  ensures env (await resp wrap {| poller_request := r |}) Q.
Proof.
  intros H1 H2 H3. apply ensures_cases. intros h. unfold await. cbn.
  destruct (resp env h r); cbn;
    (eexists; split; [reflexivity | first [apply H1 | apply H2 | exact H3]]).
Qed.

Lemma ensures_wait_for_no_anf_resource fuel anf_client id
    (Q : (Trace -> Trace) -> Outcome unit -> Prop) :
  (forall n, n < fuel ->
     Q (fun rest => repeat (EvGet id true) n ++ EvGet id false :: rest) (Ok tt)) ->
  Q (fun rest => repeat (EvGet id true) fuel ++ rest) Diverged ->
  ensures env (wait_for_no_anf_resource fuel anf_client id) Q.
Proof.
  intros H1 H2 h.
  destruct (wait_for_no_anf_resource_polls fuel anf_client id env h)
    as [[n [Hn ->]] | ->]; cbn.
  - exists (fun rest => repeat (EvGet id true) n ++ EvGet id false :: rest).
    split; [ | auto]. intros rest. now rewrite <- app_assoc.
  - exists (fun rest => repeat (EvGet id true) fuel ++ rest). auto.
Qed.

Lemma ensures_get_anf_capacity_pool uri (Q : (Trace -> Trace) -> Outcome PyStr -> Prop) :
  Q (fun rest => rest) (Ok (get_anf_capacity_pool env uri)) ->
  ensures env (resource_uri_utils_get_anf_capacity_pool uri) Q.
Proof. intros H. eapply ensures_const with (es := []); [reflexivity | exact H]. Qed.

Lemma ensures_get_anf_volume uri (Q : (Trace -> Trace) -> Outcome PyStr -> Prop) :
  Q (fun rest => rest) (Ok (get_anf_volume env uri)) ->
  ensures env (resource_uri_utils_get_anf_volume uri) Q.
Proof. intros H. eapply ensures_const with (es := []); [reflexivity | exact H]. Qed.

Lemma ensures_get_resource_value uri name (Q : (Trace -> Trace) -> Outcome PyStr -> Prop) :
  Q (fun rest => rest) (Ok (get_resource_value env uri name)) ->
  ensures env (resource_uri_utils_get_resource_value uri name) Q.
Proof. intros H. eapply ensures_const with (es := []); [reflexivity | exact H]. Qed.

End Rules.



(* ================================================================== *)
(** ** Tactics *)

#[local] Arguments format : simpl never.
#[local] Arguments b64encode : simpl never.
#[local] Arguments str_of_list : simpl never.
#[local] Arguments String.append : simpl never.
#[local] Arguments repeat : simpl never.
#[local] Arguments py_str : simpl never.

(** One step of a run: the rule of the command in front, then the
    reduction of the continuation applied to its result. *)
Ltac run_step :=
  lazymatch goal with
  | |- ensures _ (bind _ _) _ => apply ensures_bind
  | |- ensures _ (ret _) _ => apply ensures_ret
  | |- ensures _ (emit _) _ => apply ensures_emit
  | |- ensures _ (print_header _) _ => apply ensures_emit
  | |- ensures _ (console_output _) _ => apply ensures_emit
  | |- ensures _ (raise_ _) _ => apply ensures_raise
  | |- ensures _ (try_except _ (except_CloudError _)) _ => apply ensures_try_except
  | |- ensures _ get_credentials _ =>
      apply ensures_get_credentials; [intros [? ?] | intros ? | ]
  | |- ensures _ (getpass _) _ => apply ensures_getpass; [intros ? | intros ? | ]
  | |- ensures _ (get_root_ca_cert _) _ =>
      apply ensures_get_root_ca_cert; [intros ? | intros ? | ]
  | |- ensures _ (AzureNetAppFilesManagementClient _ _) _ => apply ensures_client
  | |- ensures _ (invoke _ _) _ => apply ensures_invoke; [ | intros [? | ? ?] | ]
  | |- ensures _ (account_result _) _ => apply ensures_await; [intros ? | intros [? | ? ?] | ]
  | |- ensures _ (pool_result _) _ => apply ensures_await; [intros ? | intros [? | ? ?] | ]
  | |- ensures _ (volume_result _) _ => apply ensures_await; [intros ? | intros [? | ? ?] | ]
  | |- ensures _ (wait _) _ => apply ensures_await; [intros ? | intros [? | ? ?] | ]
  | |- ensures _ (wait_for_no_anf_resource _ _ _) _ =>
      apply ensures_wait_for_no_anf_resource; [intros ? ? | ]
  | |- ensures _ (resource_uri_utils_get_anf_capacity_pool _) _ =>
      apply ensures_get_anf_capacity_pool
  | |- ensures _ (resource_uri_utils_get_anf_volume _) _ => apply ensures_get_anf_volume
  | |- ensures _ (resource_uri_utils_get_resource_value _ _) _ =>
      apply ensures_get_resource_value
  | |- ensures _ (create_account _ _ _ _ _ _ _) _ => unfold create_account
  | |- ensures _ (create_capacity_pool _ _ _ _ _ _ _) _ => unfold create_capacity_pool
  | |- ensures _ (create_volume _ _ _ _ _ _ _ _ _ _) _ => unfold create_volume
  | |- ensures _ (for_each _ _) _ => cbn [for_each]
  | |- ensures _ (getitem ?xs _) _ =>
      unfold getitem; destruct xs as [[|? ?]|] eqn:?; cbn [nth_error]
  end; cbv beta iota zeta.

Ltac run := repeat run_step.

(** From a run of the whole script to a goal of the logic. *)
Ltac all_runs Hrun Q :=
  lazymatch type of Hrun with
  | exec _ _ = (?tr, ?out) =>
      pattern tr, out;
      lazymatch goal with |- ?P tr out => set (Q := P) end;
      revert tr out Hrun; apply ensures_exec;
      unfold run_example_with
  end.

Ltac skip_polls :=
  rewrite ?api_calls_polls, ?lro_marks_polls, ?lro_results_polls, ?prompted_polls,
    ?certificates_read_polls, ?teardown_events_polls.

Ltac read_trace Q :=
  subst Q; cbn;
  repeat lazymatch goal with
    | |- context [repeat] => progress skip_polls; cbn
    end.

Ltac check_events Q :=
  subst Q; cbv beta;
  repeat lazymatch goal with
    | |- at_every_event _ (repeat _ _ ++ _) =>
        apply at_every_event_polls; [intros; exact I | ]
    | |- at_every_event _ (_ :: _) =>
        split; [cbv beta iota delta [awaited logged_and_reraised mount_target_read] | ]
    | |- at_every_event _ [] => exact I
    | |- True => exact I
    end.

Ltac find_in H :=
  cbn in H;
  repeat (destruct H as [H | H]; [try discriminate H | ]);
  try contradiction.

Ltac is_prefix :=
  repeat first [ apply prefix_of_nil | apply prefix_of_cons | apply prefix_of_app ].

(* ================================================================== *)
(** ** The encoder on the test vectors of RFC 4648 *)

Example b64encode_rfc4648 :
  map (fun s => bytes_decode (b64encode (str_encode s)))
      [EmptyString; "f"; "fo"; "foo"; "foob"; "fooba"; "foobar"]
  = [EmptyString; "Zg=="; "Zm8="; "Zm9v"; "Zm9vYg=="; "Zm9vYmE="; "Zm9vYmFy"].
Proof. reflexivity. Qed.

Example format_fills_fields_in_order :
  format "/subscriptions/{}/resourceGroups/{}" ["s"; "rg"] = "/subscriptions/s/resourceGroups/rg".
Proof. reflexivity. Qed.

(* ================================================================== *)
(** ** The request bodies *)

(** The operations one call of a [create_*] function invokes do not depend
    on how the service answers. *)
Lemma api_calls_of_lro {A} anf_client r (resp : Env -> Trace -> Request -> Outcome A)
    wrap env h :
  api_calls (fst (bind (invoke anf_client r) (await resp wrap) env h)) = [r].
Proof.
  unfold bind, invoke, await.
  destruct (begin_resp env h r); cbn; auto.
  destruct (resp env _ r); reflexivity.
Qed.

(** Each [create_*] function returns only once its operation has
    completed: when it returns a resource, what it did is the invocation
    followed by the completion that handed the resource back. *)
Lemma lro_returns_after_completion {A} anf_client r
    (resp : Env -> Trace -> Request -> Outcome A) wrap env h es a :
  bind (invoke anf_client r) (await resp wrap) env h = (es, Ok a) ->
  es = [EvCall r; EvDone r (wrap a)].
Proof.
  unfold bind, invoke, await.
  destruct (begin_resp env h r); cbn; try discriminate.
  destruct (resp env _ r); cbn; intros [= <- <-]; reflexivity.
Qed.

Lemma create_functions_return_after_completion anf_client rg loc tags env h es :
  (forall name password cert a,
     create_account anf_client rg name loc password cert tags env h = (es, Ok a) ->
     exists r, es = [EvCall r; EvDone r (RAccount a)]) /\
  (forall acc name size p,
     create_capacity_pool anf_client rg acc name size loc tags env h = (es, Ok p) ->
     exists r, es = [EvCall r; EvDone r (RPool p)]) /\
  (forall acc pool name size subnet dp v,
     create_volume anf_client rg acc pool name size subnet loc dp tags env h = (es, Ok v) ->
     exists r, es = [EvCall r; EvDone r (RVolume v)]).
Proof.
  repeat split; intros; eexists; eapply lro_returns_after_completion; eassumption.
Qed.

(** C3. Whatever its arguments and whatever the service answers, the one
    request [create_volume] sends is a volume creation whose body has
    [protocol_types] equal to the list of "CIFS" and "NFSv3": both protocols
    at once. *)
Theorem create_volume_enables_both_protocols :
  forall anf_client rg acc pool vol size subnet loc dp tags env h,
  exists body,
    api_calls (fst (create_volume anf_client rg acc pool vol size subnet loc dp tags env h))
    = [VolumesCreateOrUpdate body rg acc pool vol] /\
    protocol_types body = ["CIFS"; "NFSv3"].
Proof.
  intros. unfold create_volume, volume_result. rewrite api_calls_of_lro.
  eexists. split; reflexivity.
Qed.

(** C8. The pool request and the volume request both carry the service
    level "Standard" of the module constant, whatever the caller passes;
    so the volume's requested level equals the pool's. *)
Theorem service_level_is_the_module_constant :
  forall anf_client rg acc pool size loc tags env h
         anf_client' rg' acc' pool' vol vsize subnet loc' dp tags' env' h',
  exists pool_body volume_body,
    api_calls (fst (create_capacity_pool anf_client rg acc pool size loc tags env h))
    = [PoolsCreateOrUpdate pool_body rg acc pool] /\
    api_calls (fst (create_volume anf_client' rg' acc' pool' vol vsize subnet loc' dp
                                  tags' env' h'))
    = [VolumesCreateOrUpdate volume_body rg' acc' pool' vol] /\
    pool_service_level pool_body = "Standard" /\
    volume_service_level volume_body = "Standard" /\
    volume_service_level volume_body = pool_service_level pool_body /\
    CAPACITY_POOL_SERVICE_LEVEL = "Standard".
Proof.
  intros. unfold create_capacity_pool, create_volume, pool_result, volume_result.
  rewrite !api_calls_of_lro.
  do 2 eexists. repeat split; reflexivity.
Qed.

(** C10. The one request [create_volume] sends has security style "ntfs"
    and the volume's name as its creation token. *)
Theorem create_volume_ntfs_and_token :
  forall anf_client rg acc pool vol size subnet loc dp tags env h,
  exists body,
    api_calls (fst (create_volume anf_client rg acc pool vol size subnet loc dp tags env h))
    = [VolumesCreateOrUpdate body rg acc pool vol] /\
    security_style body = "ntfs" /\
    creation_token body = vol.
Proof.
  intros. unfold create_volume, volume_result. rewrite api_calls_of_lro.
  eexists. repeat split; reflexivity.
Qed.

(* ================================================================== *)
(** ** The runs of [run_example] *)

(** C7. With the flag as the module has it ([False]) a run invokes no
    delete operation and polls nothing: the operations it invokes are an
    initial segment of the three creations, each at most once.  For any
    value of the flag, either it is [True] or the run has no teardown event;
    and with [True] the healthy service sees the three deletions. *)
Theorem cleanup_gated_on_flag env fuel :
  run_example fuel = run_example_with fuel false /\
  teardown_events (fst (exec (run_example fuel) env)) = [] /\
  prefix_of (map step_of (api_calls (fst (exec (run_example fuel) env))))
            [CreateAccount; CreatePool; CreateVolume] /\
  (forall cleanup_resources,
     cleanup_resources = true \/
     teardown_events (fst (exec (run_example_with fuel cleanup_resources) env)) = []) /\
  map step_of (api_calls (fst (exec (run_example_with 3 true) Sample.healthy)))
  = [CreateAccount; CreatePool; CreateVolume; DeleteVolume; DeletePool; DeleteAccount].
Proof.
  assert (H : forall tr out, exec (run_example_with fuel false) env = (tr, out) ->
              teardown_events tr = [] /\
              prefix_of (map step_of (api_calls tr))
                        [CreateAccount; CreatePool; CreateVolume]).
  { intros tr out Hrun. all_runs Hrun Q. run.
    all: read_trace Q; (split; [reflexivity | is_prefix]). }
  unfold run_example, CLEANUP_RESOURCES.
  destruct (exec (run_example_with fuel false) env) as [tr out] eqn:E.
  destruct (H tr out eq_refl) as [H1 H2].
  repeat split; cbn [fst]; auto.
  intros [|]; [left; reflexivity | right; rewrite E; exact H1].
Qed.

(** C2. In every run the starts and completions of the operations form an
    initial segment of: account created, pool created, volume created and,
    with cleanup, volume deleted, pool deleted, account deleted, each
    operation completing before the next starts; a run that ends normally
    has them all.  The pool request names the account the service returned,
    the volume request that account and the pool name read off the returned
    pool's id. *)
Theorem steps_strictly_ordered env fuel cleanup_resources tr out :
  exec (run_example_with fuel cleanup_resources) env = (tr, out) ->
  prefix_of (lro_marks tr) (schedule cleanup_resources) /\
  (out = Ok tt -> lro_marks tr = schedule cleanup_resources) /\
  (forall body rg acc pool,
     In (PoolsCreateOrUpdate body rg acc pool) (api_calls tr) ->
     exists a, In (RAccount a) (lro_results tr) /\ acc = account_name a) /\
  (forall body rg acc pool vol,
     In (VolumesCreateOrUpdate body rg acc pool vol) (api_calls tr) ->
     exists a p,
       In (RAccount a) (lro_results tr) /\ In (RPool p) (lro_results tr) /\
       acc = account_name a /\ pool = get_anf_capacity_pool env (pool_id p)).
Proof.
  intros Hrun. all_runs Hrun Q.
  destruct cleanup_resources; run.
  all: read_trace Q.
  all: split; [is_prefix | split; [try discriminate; try reflexivity | ]].
  all: split; [intros body rg acc pool Hin | intros body rg acc pool vol Hin];
       find_in Hin.
  all: try (injection Hin as <- <- <- <-; eexists; split; [cbn; eauto 10 | reflexivity]).
  all: injection Hin as <- <- <- <- <-; do 2 eexists; repeat split; cbn; eauto 10.
Qed.

Lemma steps_strictly_ordered_witness :
  lro_marks (fst (exec (run_example_with 3 true) Sample.healthy)) = schedule true.
Proof.
  refine (proj1 (proj2 (steps_strictly_ordered Sample.healthy 3 true
                          (tr := fst (exec (run_example_with 3 true) Sample.healthy))
                          (out := snd (exec (run_example_with 3 true) Sample.healthy))
                          _)) _).
  - vm_compute. reflexivity.
  - vm_compute. reflexivity.
Defined.

(** C5. Every operation the script invokes is waited on at once: in any
    run the invocation of [r] is followed immediately by the completion of
    [r], or by the exception it raised, with which the run ends without
    invoking anything else, or by nothing at all when the operation never
    returns.  So no line is printed and no later step starts between an
    invocation and its completion. *)
Theorem operations_awaited env fuel cleanup_resources tr out :
  exec (run_example_with fuel cleanup_resources) env = (tr, out) ->
  forall pre r post, tr = pre ++ EvCall r :: post ->
    (exists res post', post = EvDone r res :: post') \/
    (exists ex post',
       post = EvRaise r ex :: post' /\ out = Raised ex /\ api_calls post' = []) \/
    (post = [] /\ out = Diverged).
Proof.
  intros Hrun pre r post Hsplit.
  apply (at_every_event_split (awaited out) (tr := tr))
    with (pre := pre) (e := EvCall r) (post := post); [ | exact Hsplit].
  clear Hsplit pre r post. all_runs Hrun Q.
  destruct cleanup_resources; run.
  all: check_events Q.
  all: try solve [left; do 2 eexists; reflexivity].
  all: try solve [right; left; do 2 eexists; repeat split; reflexivity].
  all: right; right; split; reflexivity.
Qed.

Lemma operations_awaited_witness :
  let tr := fst (exec (run_example_with 3 true) Sample.healthy) in
  exists res post', skipn 10 tr = EvDone (Sample.request_at tr 9) res :: post'.
Proof.
  intros tr.
  destruct (operations_awaited Sample.healthy 3 true
              (tr := tr) (out := snd (exec (run_example_with 3 true) Sample.healthy))
              ltac:(vm_compute; reflexivity)
              (firstn 9 tr) (Sample.request_at tr 9) (skipn 10 tr)
              ltac:(vm_compute; reflexivity))
    as [Hdone | [Hraised | Hhung]].
  - exact Hdone.
  - destruct Hraised as [ex [post' [_ [Hout _]]]]. vm_compute in Hout. discriminate Hout.
  - destruct Hhung as [_ Hout]. vm_compute in Hout. discriminate Hout.
Defined.

(** C4. When an operation of the script (one of the three creations or of
    the three deletions) raises a cloud error, what follows in the run is
    exactly one console line, the message of the failed step with the
    error's text, and the run ends with that same error: nothing else is
    invoked or printed. *)
Theorem cloud_errors_logged_and_reraised env fuel cleanup_resources tr out :
  exec (run_example_with fuel cleanup_resources) env = (tr, out) ->
  forall pre r msg post, tr = pre ++ EvRaise r (CloudError msg) :: post ->
    post = [EvConsole (format (error_template (step_of r)) [msg])] /\
    out = Raised (CloudError msg).
Proof.
  intros Hrun pre r msg post Hsplit.
  apply (at_every_event_split (logged_and_reraised out) (tr := tr))
    with (pre := pre) (e := EvRaise r (CloudError msg)) (post := post);
    [ | exact Hsplit].
  clear Hsplit pre r msg post. all_runs Hrun Q.
  destruct cleanup_resources; run.
  all: check_events Q.
  all: split; reflexivity.
Qed.

Lemma cloud_errors_logged_and_reraised_witness :
  let run := exec (run_example_with 3 true) Sample.conflicting in
  skipn 35 (fst run)
  = [EvConsole (format (error_template (step_of (Sample.request_at (fst run) 34)))
                       ["Conflict"])] /\
  snd run = Raised (CloudError "Conflict").
Proof.
  intros run.
  apply (cloud_errors_logged_and_reraised Sample.conflicting 3 true
           (tr := fst run) (out := snd run)
           ltac:(vm_compute; reflexivity)
           (firstn 34 (fst run)) (Sample.request_at (fst run) 34) "Conflict"
           (skipn 35 (fst run))
           ltac:(vm_compute; reflexivity)).
Defined.

(** Each of the six steps, failing on the sample service, ends the run
    with its own line and the error. *)
Example every_step_reports_its_failure : forall s,
  let run := exec (run_example_with 3 true) (Sample.failing s) in
  last (fst run) EvGetCredentials = EvConsole (format (error_template s) ["Conflict"]) /\
  snd run = Raised (CloudError "Conflict").
Proof. intros []; vm_compute; split; reflexivity. Qed.

(** C6. Whenever a run sends the account creation, its body holds exactly
    one Active Directory entry; the entry's password is the text typed at
    the one prompt of the run, and its root CA certificate is the base64
    encoding of the content of the certificate file, the one file read. *)
Theorem account_request_embeds_directory_join env fuel cleanup_resources tr out :
  exec (run_example_with fuel cleanup_resources) env = (tr, out) ->
  forall body rg name,
    In (AccountsCreateOrUpdate body rg name) (api_calls tr) ->
    exists typed content ad,
      prompted tr = [typed] /\
      certificates_read tr = [(ROOT_CA_CERT_FULL_FILEPATH, content)] /\
      active_directories body = [ad] /\
      ad_password ad = typed /\
      ad_server_root_ca_certificate ad
      = bytes_decode (b64encode (str_encode content)).
Proof.
  intros Hrun. all_runs Hrun Q.
  destruct cleanup_resources; run.
  all: read_trace Q.
  all: intros body rg name Hin; find_in Hin.
  all: injection Hin as <- <- <-; do 3 eexists; repeat split; reflexivity.
Qed.

Lemma account_request_embeds_directory_join_witness :
  let tr := fst (exec (run_example_with 3 false) Sample.healthy) in
  exists typed content ad,
    prompted tr = [typed] /\
    certificates_read tr = [(ROOT_CA_CERT_FULL_FILEPATH, content)] /\
    active_directories
      (NetAppAccount_ LOCATION None
         [{| ad_username := DOMAIN_JOIN_USERNAME; ad_password := "S3cret!";
             ad_domain := AD_FQDN; ad_dns := DNS_LIST;
             ad_smb_server_name := SMB_SERVERNAME_PREFIX;
             ad_server_root_ca_certificate := "Zm9vYmFy" |}]) = [ad] /\
    ad_password ad = typed /\
    ad_server_root_ca_certificate ad = bytes_decode (b64encode (str_encode content)).
Proof.
  intros tr.
  apply (account_request_embeds_directory_join Sample.healthy 3 false
           (tr := tr) (out := snd (exec (run_example_with 3 false) Sample.healthy))
           ltac:(vm_compute; reflexivity)
           _ RESOURCE_GROUP_NAME ANF_ACCOUNT_NAME).
  vm_compute. left. reflexivity.
Defined.

(** C9. Once the volume has come back the script prints that it was
    created and its protocol types, then reads the first mount target,
    without a test, to print the SMB server's FQDN and the NFS address.
    With an empty list of mount targets the run stops there with an
    [IndexError]. *)
Theorem first_mount_target_is_read env fuel cleanup_resources tr out :
  exec (run_example_with fuel cleanup_resources) env = (tr, out) ->
  forall pre r v post, tr = pre ++ EvDone r (RVolume v) :: post ->
    exists rest,
      post = EvConsole (format (TAB ++ "Volume successfully created. Resource id: {}")%string
                               [py_str (volume_id v)])
             :: EvConsole (format "Current Volume protocol types: {}"
                                  [str_of_list (protocol_types v)])
             :: rest /\
      match mount_targets v with
      | Some (target :: _) =>
          exists rest',
            rest = EvConsole (format "SMB Server FQDN: {}" [py_str (smb_server_fqdn target)])
                   :: EvConsole (format "NFS IP Address: {}" [py_str (ip_address target)])
                   :: rest'
      | Some [] => rest = [] /\ out = Raised (IndexError "list index out of range")
      | None => rest = [] /\ out = Raised (TypeError "'NoneType' object is not subscriptable")
      end.
Proof.
  intros Hrun pre r v post Hsplit.
  apply (at_every_event_split (mount_target_read out) (tr := tr))
    with (pre := pre) (e := EvDone r (RVolume v)) (post := post);
    [ | exact Hsplit].
  clear Hsplit pre r v post. all_runs Hrun Q.
  destruct cleanup_resources; run.
  all: check_events Q.
  all: eexists; split; [reflexivity | ].
  all: match goal with H : mount_targets _ = _ |- _ => rewrite H end.
  all: try (split; reflexivity).
  all: eexists; reflexivity.
Qed.

Lemma first_mount_target_is_read_witness :
  let run := exec (run_example_with 3 true) Sample.unmounted in
  snd run = Raised (IndexError "list index out of range").
Proof.
  intros run.
  destruct (first_mount_target_is_read Sample.unmounted 3 true
              (tr := fst run) (out := snd run)
              ltac:(vm_compute; reflexivity)
              (firstn 18 (fst run)) (Sample.request_at (fst run) 18)
              (match nth_error (fst run) 18 with
               | Some (EvDone _ (RVolume v)) => v
               | _ => Sample.created_volume
               end)
              (skipn 19 (fst run))
              ltac:(vm_compute; reflexivity))
    as [rest [Hpost Hrest]].
  vm_compute in Hrest. exact (proj2 Hrest).
Defined.

(** C1, as the code has it.  With cleanup enabled, what a run does to tear
    down the account [a], the pool [p] and the volume [v] the service
    returned is an initial segment of this sequence, and all of it when the
    run ends normally: the volume is deleted, then polled until a poll no
    longer finds it; then the pool is deleted, and polled until a poll no
    longer finds it; then the account is deleted.  Nothing is polled after
    the deletion of the account. *)
Theorem teardown_order_and_polls env fuel tr out :
  exec (run_example_with fuel true) env = (tr, out) ->
  forall a p v,
    In (RAccount a) (lro_results tr) ->
    In (RPool p) (lro_results tr) ->
    In (RVolume v) (lro_results tr) ->
    exists n1 n2,
      prefix_of (teardown_events tr) (teardown_plan env a p v n1 n2) /\
      (out = Ok tt -> teardown_events tr = teardown_plan env a p v n1 n2).
Proof.
  intros Hrun. all_runs Hrun Q. run.
  all: read_trace Q.
  all: intros a' p' v' Ha Hp Hv; find_in Ha; find_in Hp; find_in Hv.
  all: injection Ha as <-; injection Hp as <-; injection Hv as <-.
  all: do 2 eexists; unfold teardown_plan;
       (split; [is_prefix | try discriminate; try reflexivity]).
  Unshelve. all: exact 0.
Qed.

Lemma teardown_order_and_polls_witness :
  exists n1 n2,
    teardown_events (fst (exec (run_example_with 3 true) Sample.healthy))
    = teardown_plan Sample.healthy Sample.created_account Sample.created_pool
                    Sample.created_volume n1 n2.
Proof.
  destruct (teardown_order_and_polls Sample.healthy 3
              (tr := fst (exec (run_example_with 3 true) Sample.healthy))
              (out := snd (exec (run_example_with 3 true) Sample.healthy))
              ltac:(vm_compute; reflexivity)
              Sample.created_account Sample.created_pool Sample.created_volume
              ltac:(vm_compute; auto 10)
              ltac:(vm_compute; auto 10)
              ltac:(vm_compute; auto 10))
    as [n1 [n2 [_ Hall]]].
  exists n1, n2. apply Hall. vm_compute. reflexivity.
Defined.

(** C1, as it is written, fails: on the healthy service the run with
    cleanup ends normally and deletes the account, yet no poll of the
    account occurs anywhere in it, while the volume and the pool are each
    polled until gone. *)
Lemma account_deletion_is_not_polled :
  let run := exec (run_example_with 3 true) Sample.healthy in
  let a := Sample.created_account in
  snd run = Ok tt /\
  In (RAccount a) (lro_results (fst run)) /\
  In (EvDone (AccountsDelete RESOURCE_GROUP_NAME (account_name a)) RNone) (fst run) /\
  In (EvGet (volume_id Sample.created_volume) false) (fst run) /\
  In (EvGet (pool_id Sample.created_pool) false) (fst run) /\
  forall found, ~ In (EvGet (account_id a) found) (fst run).
Proof.
  vm_compute. repeat split; auto 50.
  intros found Hin.
  repeat (destruct Hin as [Hin | Hin]; [discriminate Hin || (injection Hin; discriminate) | ]).
  exact Hin.
Qed.

(* ================================================================== *)
(** ** More on the runs of [run_example] *)

Lemma at_every_event_polls_tail (P : Event -> Trace -> Prop) id n (tail : Trace) :
  (forall k, P (EvGet id true) (repeat (EvGet id true) k ++ tail)) ->
  at_every_event P tail ->
  at_every_event P (repeat (EvGet id true) n ++ tail).
Proof.
  intros Hp Htail. induction n as [|n IH]; cbn; auto.
  split; [apply (Hp n) | exact IH].
Qed.

Lemma suffix_of_refl {A} (s : list A) : suffix_of s s.
Proof. exists []. reflexivity. Qed.

Lemma suffix_of_cons {A} (x : A) s l : suffix_of s l -> suffix_of s (x :: l).
Proof. intros [pre ->]. exists (x :: pre). reflexivity. Qed.

Lemma suffix_of_app {A} (front s l : list A) : suffix_of s l -> suffix_of s (front ++ l).
Proof. intros [pre ->]. exists (front ++ pre). now rewrite app_assoc. Qed.

(** What is in front of an event that is not the first. *)
Lemma at_every_event_previous (P : Event -> Trace -> Prop) (tr : Trace) :
  at_every_event P tr ->
  forall pre e post, tr = pre ++ e :: post -> pre <> [] ->
    exists pre' x, pre = pre' ++ [x] /\ P x (e :: post).
Proof.
  intros Hall pre e post Htr Hpre.
  destruct (exists_last Hpre) as [pre' [x ->]].
  exists pre', x. split; [reflexivity | ].
  apply (@at_every_event_split P tr Hall pre' x (e :: post)).
  rewrite Htr, <- app_assoc. reflexivity.
Qed.

Ltac discipline_of_event :=
  cbv beta iota delta [run_discipline propagated_unlogged announced reported success_is_last];
  (split; [ | split; [ | split]]);
  lazymatch goal with
  | |- True => exact I
  | |- match repeat _ ?n ++ _ with _ => _ end => destruct n; exact I
  | |- exists _, _ => eexists; reflexivity
  | |- _ = success_line -> _ =>
      let H := fresh in
      intros H; first [split; reflexivity | vm_compute in H; discriminate H]
  | |- _ /\ _ => split; reflexivity
  | |- _ => reflexivity
  end.

Ltac check_discipline Q :=
  subst Q; cbv beta; split; [ | reflexivity];
  repeat lazymatch goal with
    | |- at_every_event _ (repeat _ _ ++ _) =>
        apply at_every_event_polls_tail; [intros [|?]; discipline_of_event | ]
    | |- at_every_event _ (_ :: _) => split; [discipline_of_event | ]
    | |- at_every_event _ [] => exact I
    end.

(** The console discipline of every run, event by event. *)
Lemma run_example_discipline env fuel cleanup_resources tr out :
  exec (run_example_with fuel cleanup_resources) env = (tr, out) ->
  at_every_event (run_discipline out) tr /\ starts_with_header tr.
Proof.
  intros Hrun. all_runs Hrun Q.
  destruct cleanup_resources; run.
  all: check_discipline Q.
Qed.

(** X1. An exception of an operation that is not a [CloudError] passes
    through the [except CloudError] clause: nothing is printed after it and
    the run ends with that exception. *)
Theorem other_errors_propagate_unlogged env fuel cleanup_resources tr out :
  exec (run_example_with fuel cleanup_resources) env = (tr, out) ->
  forall pre r class_name msg post,
    tr = pre ++ EvRaise r (OtherError class_name msg) :: post ->
    post = [] /\ out = Raised (OtherError class_name msg).
Proof.
  intros Hrun pre r class_name msg post Hsplit.
  destruct (@run_example_discipline _ _ _ _ _ Hrun) as [Hall _].
  exact (proj1 (@at_every_event_split _ _ Hall pre _ post Hsplit)).
Qed.

(** X3. Every operation is invoked right after its console announcement:
    the fixed line of a creation, or "Deleting" with the very name that is
    sent to the service. *)
Theorem operations_are_announced env fuel cleanup_resources tr out :
  exec (run_example_with fuel cleanup_resources) env = (tr, out) ->
  forall pre r post, tr = pre ++ EvCall r :: post ->
    exists pre', pre = pre' ++ [EvConsole (announcement r)].
Proof.
  intros Hrun pre r post Hsplit.
  destruct (@run_example_discipline _ _ _ _ _ Hrun) as [Hall Hhead].
  assert (Hpre : pre <> []).
  { intros ->. rewrite Hsplit in Hhead. exact Hhead. }
  destruct (@at_every_event_previous _ _ Hall pre _ post Hsplit Hpre)
    as [pre' [x [-> [_ [Hx _]]]]].
  exists pre'. cbv beta iota delta [announced] in Hx. rewrite Hx. reflexivity.
Qed.

(** X4. The line printed right after an account or a pool comes back
    carries the id the service returned for it. *)
Theorem created_resources_are_reported env fuel cleanup_resources tr out :
  exec (run_example_with fuel cleanup_resources) env = (tr, out) ->
  forall pre r res post, tr = pre ++ EvDone r res :: post ->
    match res with
    | RAccount a =>
        exists rest,
          post = EvConsole (format (TAB ++ "Account successfully created. Resource id: {}")%string
                                   [py_str (account_id a)])
                 :: rest
    | RPool p =>
        exists rest,
          post = EvConsole (format (TAB ++ "Capacity Pool successfully created. Resource id: {}")%string
                                   [py_str (pool_id p)])
                 :: rest
    | _ => True
    end.
Proof.
  intros Hrun pre r res post Hsplit.
  destruct (@run_example_discipline _ _ _ _ _ Hrun) as [Hall _].
  pose proof (@at_every_event_split _ _ Hall pre _ post Hsplit) as [_ [_ [H _]]].
  destruct res; try exact I; exact H.
Qed.

(** What every run sends and how a normal run ends. *)
Lemma run_example_requests env fuel cleanup_resources tr out :
  exec (run_example_with fuel cleanup_resources) env = (tr, out) ->
  Forall well_addressed (api_calls tr) /\
  Forall within_documented_sizes (api_calls tr) /\
  (out = Ok tt -> suffix_of [EvConsole success_line] tr) /\
  (api_calls tr = [] \/
   exists typed content,
     prompted tr = [typed] /\
     certificates_read tr = [(ROOT_CA_CERT_FULL_FILEPATH, content)]) /\
  (certificates_read tr = [] \/ exists typed, prompted tr = [typed]).
Proof.
  intros Hrun. all_runs Hrun Q.
  destruct cleanup_resources; run.
  all: read_trace Q.
  all: split; [ | split; [ | split; [ | split]]].
  all: try solve [left; reflexivity].
  all: try solve [right; eexists; reflexivity].
  all: try solve [right; do 2 eexists; split; reflexivity].
  all: try (repeat (constructor; [cbn; repeat split; reflexivity | ]); constructor).
  all: try (repeat (constructor;
                    [cbn; repeat split;
                     first [reflexivity | exact I | (vm_compute; discriminate)] | ]);
            constructor).
  all: intros Hout; try discriminate Hout;
       repeat first [apply suffix_of_refl | apply suffix_of_cons | apply suffix_of_app].
Qed.

(** X2. A run that ends normally ends with the line "ANF Dual-Protocol
    sample has completed successfully", and that line is printed by no
    other run and nowhere else in a run. *)
Theorem success_line_iff_normal_end env fuel cleanup_resources tr out :
  exec (run_example_with fuel cleanup_resources) env = (tr, out) ->
  (out = Ok tt -> suffix_of [EvConsole success_line] tr) /\
  (forall pre post, tr = pre ++ EvConsole success_line :: post ->
     post = [] /\ out = Ok tt).
Proof.
  intros Hrun. split.
  - exact (proj1 (proj2 (proj2 (@run_example_requests _ _ _ _ _ Hrun)))).
  - intros pre post Hsplit.
    destruct (@run_example_discipline _ _ _ _ _ Hrun) as [Hall _].
    pose proof (@at_every_event_split _ _ Hall pre _ post Hsplit) as [_ [_ [_ H]]].
    exact (H eq_refl).
Qed.

(** X5. Every request of every run goes to the resource group of the
    module constants; the three creations use the constant names and the
    one location, the account without tags and the volume without data
    protection. *)
Theorem requests_well_addressed env fuel cleanup_resources :
  Forall well_addressed
         (api_calls (fst (exec (run_example_with fuel cleanup_resources) env))).
Proof.
  destruct (exec (run_example_with fuel cleanup_resources) env) as [tr out] eqn:Hrun.
  exact (proj1 (@run_example_requests _ _ _ _ _ Hrun)).
Qed.

(** X6. The sizes a run requests are inside the ranges of the docstrings:
    the pool is 4 TiB, the least a pool may be, the volume is 100 GiB, the
    least a volume may be, and the volume fits into the pool. *)
Theorem requested_sizes_within_documented_ranges env fuel cleanup_resources :
  Forall within_documented_sizes
         (api_calls (fst (exec (run_example_with fuel cleanup_resources) env))).
Proof.
  destruct (exec (run_example_with fuel cleanup_resources) env) as [tr out] eqn:Hrun.
  exact (proj1 (proj2 (@run_example_requests _ _ _ _ _ Hrun))).
Qed.

(** X12. The script asks for the password before it reads the certificate
    file and invokes no operation before it has both: a run in which the
    prompt or the reading of the file fails has invoked nothing. *)
Theorem nothing_invoked_before_the_secrets env fuel cleanup_resources :
  let tr := fst (exec (run_example_with fuel cleanup_resources) env) in
  (api_calls tr = [] \/
   exists typed content,
     prompted tr = [typed] /\
     certificates_read tr = [(ROOT_CA_CERT_FULL_FILEPATH, content)]) /\
  (certificates_read tr = [] \/ exists typed, prompted tr = [typed]).
Proof.
  destruct (exec (run_example_with fuel cleanup_resources) env) as [tr out] eqn:Hrun.
  exact (proj2 (proj2 (proj2 (@run_example_requests _ _ _ _ _ Hrun)))).
Qed.

(** A step of a run seen from outside: what [bind] does with the outcome
    of its first command. *)
Lemma bind_from {A B} (m : M A) (k : A -> M B) env h tr out :
  bind m k env h = (tr, out) ->
  match m env h with
  | (es, Ok a) => exists es', k a env (h ++ es) = (es', out) /\ tr = es ++ es'
  | (es, Raised e) => tr = es /\ out = Raised e
  | (es, Diverged) => tr = es /\ out = Diverged
  end.
Proof.
  unfold bind. destruct (m env h) as [es [a | e | ]].
  - destruct (k a env (h ++ es)) as [es' o]. intros [= <- <-]. eauto.
  - intros [= <- <-]. auto.
  - intros [= <- <-]. auto.
Qed.

Lemma ensures_from {A} env (m : M A) (P : Trace -> Outcome A -> Prop) :
  ensures env m (fun front => P (front [])) ->
  forall h es o, m env h = (es, o) -> P es o.
Proof.
  intros H h es o E. destruct (H h) as [front [Hfront HP]].
  rewrite E in *. cbn in *. rewrite Hfront, app_nil_r in HP. exact HP.
Qed.

(** X7. The subnet id of the volume request is the resource path of the
    subnet of the module constants inside the subscription that
    [get_credentials] returned at the start of the run. *)
Theorem subnet_id_names_the_subscription env fuel cleanup_resources tr out :
  exec (run_example_with fuel cleanup_resources) env = (tr, out) ->
  forall body rg acc pool vol,
    In (VolumesCreateOrUpdate body rg acc pool vol) (api_calls tr) ->
    exists credentials subscription_id,
      get_credentials_resp env [EvHeader HEADER] = Ok (credentials, subscription_id) /\
      subnet_id body
      = ("/subscriptions/" ++ subscription_id
         ++ "/resourceGroups/" ++ RESOURCE_GROUP_NAME
         ++ "/providers/Microsoft.Network/virtualNetworks/" ++ VNET_NAME
         ++ "/subnets/" ++ SUBNET_NAME)%string.
Proof.
  unfold exec, run_example_with. intros Hrun.
  apply bind_from in Hrun. unfold print_header at 1, emit at 1 in Hrun.
  destruct Hrun as [es1 [Hrun ->]].
  apply bind_from in Hrun. unfold get_credentials at 1 in Hrun.
  change ([] ++ [EvHeader
                   ("Azure NetAppFiles Python SDK Samples - Sample project that creates a Dual-Protocol Volume using "
                    ++ "the Azure NetApp Files SDK")%string])
    with [EvHeader HEADER] in Hrun.
  destruct (get_credentials_resp env [EvHeader HEADER])
    as [[credentials subscription_id] | e | ].
  - destruct Hrun as [es2 [Hrun ->]].
    intros body rg acc pool vol Hin.
    exists credentials, subscription_id. split; [reflexivity | ].
    change (api_calls ([EvHeader HEADER] ++ [EvGetCredentials] ++ es2))
      with (api_calls es2) in Hin.
    revert body rg acc pool vol Hin. pattern es2, out.
    lazymatch goal with |- ?P es2 out => set (Q := P) end.
    revert Hrun. generalize ([EvHeader HEADER] ++ [EvGetCredentials]). intros h.
    revert h es2 out. apply ensures_from.
    destruct cleanup_resources; run.
    all: read_trace Q.
    all: intros body rg acc pool vol Hin; find_in Hin.
    all: injection Hin as <- <- <- <- <-; reflexivity.
  - destruct Hrun as [-> _]. intros body rg acc pool vol [].
  - destruct Hrun as [-> _]. intros body rg acc pool vol [].
Qed.

(* ================================================================== *)
(** ** The three [create_*] functions as a caller sees them *)

Lemma lro_ends_in_three_ways {A} anf_client r
    (resp : Env -> Trace -> Request -> Outcome A) wrap env h :
  let run := bind (invoke anf_client r) (await resp wrap) env h in
  (exists a, run = ([EvCall r; EvDone r (wrap a)], Ok a)) \/
  (exists e, run = ([EvCall r; EvRaise r e], Raised e)) \/
  run = ([EvCall r], Diverged).
Proof.
  unfold bind, invoke, await.
  destruct (begin_resp env h r); cbn; eauto.
  destruct (resp env _ r); cbn; eauto.
Qed.

(** X10. A call of [create_account], [create_capacity_pool] or
    [create_volume] invokes its one operation once and ends with it: it
    returns the resource the finished operation hands back, or raises the
    very exception the operation raised, or does not return; it neither
    retries nor catches. *)
Theorem create_functions_end_with_their_operation
    anf_client rg loc env h :
  (forall name password cert tags,
     exists r, step_of r = CreateAccount /\
       let run := create_account anf_client rg name loc password cert tags env h in
       (exists a, run = ([EvCall r; EvDone r (RAccount a)], Ok a)) \/
       (exists e, run = ([EvCall r; EvRaise r e], Raised e)) \/
       run = ([EvCall r], Diverged)) /\
  (forall acc name size tags,
     exists r, step_of r = CreatePool /\
       let run := create_capacity_pool anf_client rg acc name size loc tags env h in
       (exists p, run = ([EvCall r; EvDone r (RPool p)], Ok p)) \/
       (exists e, run = ([EvCall r; EvRaise r e], Raised e)) \/
       run = ([EvCall r], Diverged)) /\
  (forall acc pool name size subnet dp tags,
     exists r, step_of r = CreateVolume /\
       let run := create_volume anf_client rg acc pool name size subnet loc dp tags env h in
       (exists v, run = ([EvCall r; EvDone r (RVolume v)], Ok v)) \/
       (exists e, run = ([EvCall r; EvRaise r e], Raised e)) \/
       run = ([EvCall r], Diverged)).
Proof.
  repeat split; intros; eexists; (split; [ | apply lro_ends_in_three_ways]); reflexivity.
Qed.

(** X11. Of the three functions only [create_account] uses its [tags]:
    they go into the account body with the location.  The requests of
    [create_capacity_pool] and [create_volume] are the same whatever [tags]
    is, so no tag ever reaches a pool or a volume. *)
Theorem tags_reach_only_the_account
    anf_client rg acc pool name size subnet loc password cert dp
    (tags tags' : option Tags) env h :
  (exists body,
     api_calls (fst (create_account anf_client rg name loc password cert tags env h))
     = [AccountsCreateOrUpdate body rg name] /\
     account_tags body = tags /\ account_location body = loc) /\
  create_capacity_pool anf_client rg acc name size loc tags
  = create_capacity_pool anf_client rg acc name size loc tags' /\
  create_volume anf_client rg acc pool name size subnet loc dp tags
  = create_volume anf_client rg acc pool name size subnet loc dp tags'.
Proof.
  repeat split.
  unfold create_account, account_result. rewrite api_calls_of_lro.
  eexists. repeat split.
Qed.

(* ================================================================== *)
(** ** Sample runs for the theorems above *)

Lemma other_errors_propagate_unlogged_witness :
  let run := exec (run_example_with 3 true) Scenario.timing_out in
  skipn 19 (fst run) = [] /\
  snd run = Raised (OtherError "TimeoutError" "timed out").
Proof.
  intros run.
  apply (@other_errors_propagate_unlogged Scenario.timing_out 3 true (fst run) (snd run)
           ltac:(vm_compute; reflexivity)
           (firstn 18 (fst run)) (Sample.request_at (fst run) 18)
           "TimeoutError" "timed out" (skipn 19 (fst run))
           ltac:(vm_compute; reflexivity)).
Defined.

Lemma operations_are_announced_witness :
  let tr := fst (exec (run_example_with 3 true) Sample.healthy) in
  exists pre', firstn 26 tr = pre' ++ [EvConsole (announcement (Sample.request_at tr 26))].
Proof.
  intros tr.
  apply (@operations_are_announced Sample.healthy 3 true tr
           (snd (exec (run_example_with 3 true) Sample.healthy))
           ltac:(vm_compute; reflexivity)
           (firstn 26 tr) (Sample.request_at tr 26) (skipn 27 tr)
           ltac:(vm_compute; reflexivity)).
Defined.

Lemma created_resources_are_reported_witness :
  let tr := fst (exec (run_example_with 3 false) Sample.healthy) in
  exists rest,
    skipn 11 tr
    = EvConsole (format (TAB ++ "Account successfully created. Resource id: {}")%string
                        [py_str (account_id Sample.created_account)])
      :: rest.
Proof.
  intros tr.
  apply (@created_resources_are_reported Sample.healthy 3 false tr
           (snd (exec (run_example_with 3 false) Sample.healthy))
           ltac:(vm_compute; reflexivity)
           (firstn 10 tr) (Sample.request_at tr 10) (RAccount Sample.created_account)
           (skipn 11 tr)
           ltac:(vm_compute; reflexivity)).
Defined.

Lemma success_line_iff_normal_end_witness :
  suffix_of [EvConsole success_line]
            (fst (exec (run_example_with 3 false) Sample.healthy)).
Proof.
  apply (proj1 (@success_line_iff_normal_end Sample.healthy 3 false
                  (fst (exec (run_example_with 3 false) Sample.healthy))
                  (snd (exec (run_example_with 3 false) Sample.healthy))
                  ltac:(vm_compute; reflexivity))).
  vm_compute. reflexivity.
Defined.

Lemma subnet_id_names_the_subscription_witness :
  exists credentials subscription_id,
    get_credentials_resp Sample.healthy [EvHeader HEADER] = Ok (credentials, subscription_id) /\
    subnet_id (Volume_ VOLUME_SIZE VOLUME_NAME LOCATION CAPACITY_POOL_SERVICE_LEVEL
                 "/subscriptions/sub-0001/resourceGroups/<Resource Group Name>/providers/Microsoft.Network/virtualNetworks/<VNET>/subnets/<Subnet Name>"
                 ["CIFS"; "NFSv3"] None "ntfs")
    = ("/subscriptions/" ++ subscription_id
       ++ "/resourceGroups/" ++ RESOURCE_GROUP_NAME
       ++ "/providers/Microsoft.Network/virtualNetworks/" ++ VNET_NAME
       ++ "/subnets/" ++ SUBNET_NAME)%string.
Proof.
  apply (@subnet_id_names_the_subscription Sample.healthy 3 false
           (fst (exec (run_example_with 3 false) Sample.healthy))
           (snd (exec (run_example_with 3 false) Sample.healthy))
           ltac:(vm_compute; reflexivity)
           _ RESOURCE_GROUP_NAME (Some ANF_ACCOUNT_NAME) (Some CAPACITY_POOL_NAME)
           VOLUME_NAME).
  vm_compute. right. right. left. reflexivity.
Defined.

(* ================================================================== *)
(** ** The encoding of the certificate *)

Lemma for_all_bytes_spec (test : N -> bool) :
  for_all_bytes test = true -> forall n, (n <= 255)%N -> test n = true.
Proof.
  unfold for_all_bytes, byte_values. intros H n Hn.
  rewrite forallb_forall in H. apply H.
  rewrite <- (N2Nat.id n). apply in_map. apply in_seq. lia.
Qed.

Lemma for_all_byte_pairs (test : N -> N -> bool) :
  for_all_bytes (fun x => for_all_bytes (test x)) = true ->
  forall a b : byte, test (Byte.to_N a) (Byte.to_N b) = true.
Proof.
  intros H a b.
  apply (for_all_bytes_spec (test (Byte.to_N a))); [ | apply Byte.to_N_bounded].
  apply (for_all_bytes_spec (fun x => for_all_bytes (test x))); [exact H | ].
  apply Byte.to_N_bounded.
Qed.

Lemma for_all_byte (test : N -> bool) :
  for_all_bytes test = true -> forall a : byte, test (Byte.to_N a) = true.
Proof. intros H a. apply for_all_bytes_spec; [exact H | apply Byte.to_N_bounded]. Qed.

Lemma byte_of_to_N (a : byte) : byte_of_N (Byte.to_N a) = a.
Proof. unfold byte_of_N. now rewrite Byte.of_to_N. Qed.

Lemma land_63_below (n : N) : (N.land n 63 < 64)%N.
Proof.
  change 63%N with (N.ones 6). rewrite N.land_ones.
  apply N.mod_upper_bound. discriminate.
Qed.

(** A digit is never the padding character and is read back as its six
    bits. *)
Lemma b64_digit_read n :
  b64_index (b64_digit n) = N.land n 63 /\ Byte.eqb (b64_digit n) b64_pad = false.
Proof.
  unfold b64_digit. pose proof (land_63_below n) as Hlt.
  set (j := N.land n 63) in *.
  assert (Hall : forallb (fun k =>
                    andb (N.eqb (b64_index (nth (N.to_nat k) b64_alphabet x3d)) k)
                         (negb (Byte.eqb (nth (N.to_nat k) b64_alphabet x3d) b64_pad)))
                   (map N.of_nat (seq 0 64)) = true) by (vm_compute; reflexivity).
  rewrite forallb_forall in Hall.
  specialize (Hall j). rewrite Bool.andb_true_iff, N.eqb_eq, Bool.negb_true_iff in Hall.
  apply Hall. rewrite <- (N2Nat.id j). apply in_map. apply in_seq. lia.
Qed.

Lemma b64_index_digit n : b64_index (b64_digit n) = N.land n 63.
Proof. apply b64_digit_read. Qed.

Lemma b64_digit_not_pad n : Byte.eqb (b64_digit n) b64_pad = false.
Proof. apply b64_digit_read. Qed.

(** The bit arithmetic of a group, checked on all bytes. *)
Lemma first_byte_back (a b : byte) :
  let x := Byte.to_N a in
  let y := Byte.to_N b in
  N.lor (N.shiftl (N.land (N.shiftr x 2) 63) 2)
        (N.shiftr (N.land (N.lor (N.shiftl (N.land x 3) 4) (N.shiftr y 4)) 63) 4) = x.
Proof.
  cbv zeta. apply N.eqb_eq.
  apply (for_all_byte_pairs (fun x y =>
    N.eqb (N.lor (N.shiftl (N.land (N.shiftr x 2) 63) 2)
                 (N.shiftr (N.land (N.lor (N.shiftl (N.land x 3) 4) (N.shiftr y 4)) 63) 4))
          x)).
  vm_compute. reflexivity.
Qed.

Lemma first_byte_back_alone (a : byte) :
  let x := Byte.to_N a in
  N.lor (N.shiftl (N.land (N.shiftr x 2) 63) 2)
        (N.shiftr (N.land (N.shiftl (N.land x 3) 4) 63) 4) = x.
Proof.
  cbv zeta. apply N.eqb_eq.
  apply (for_all_byte (fun x =>
    N.eqb (N.lor (N.shiftl (N.land (N.shiftr x 2) 63) 2)
                 (N.shiftr (N.land (N.shiftl (N.land x 3) 4) 63) 4))
          x)).
  vm_compute. reflexivity.
Qed.

Lemma second_byte_high (a b : byte) :
  let x := Byte.to_N a in
  let y := Byte.to_N b in
  N.land (N.land (N.lor (N.shiftl (N.land x 3) 4) (N.shiftr y 4)) 63) 15 = N.shiftr y 4.
Proof.
  cbv zeta. apply N.eqb_eq.
  apply (for_all_byte_pairs (fun x y =>
    N.eqb (N.land (N.land (N.lor (N.shiftl (N.land x 3) 4) (N.shiftr y 4)) 63) 15)
          (N.shiftr y 4))).
  vm_compute. reflexivity.
Qed.

Lemma second_byte_low (b c : byte) :
  let y := Byte.to_N b in
  let z := Byte.to_N c in
  N.shiftr (N.land (N.lor (N.shiftl (N.land y 15) 2) (N.shiftr z 6)) 63) 2 = N.land y 15.
Proof.
  cbv zeta. apply N.eqb_eq.
  apply (for_all_byte_pairs (fun y z =>
    N.eqb (N.shiftr (N.land (N.lor (N.shiftl (N.land y 15) 2) (N.shiftr z 6)) 63) 2)
          (N.land y 15))).
  vm_compute. reflexivity.
Qed.

Lemma second_byte_low_alone (b : byte) :
  let y := Byte.to_N b in
  N.shiftr (N.land (N.shiftl (N.land y 15) 2) 63) 2 = N.land y 15.
Proof.
  cbv zeta. apply N.eqb_eq.
  apply (for_all_byte (fun y =>
    N.eqb (N.shiftr (N.land (N.shiftl (N.land y 15) 2) 63) 2) (N.land y 15))).
  vm_compute. reflexivity.
Qed.

Lemma second_byte_back (b : byte) :
  let y := Byte.to_N b in
  N.lor (N.shiftl (N.shiftr y 4) 4) (N.land y 15) = y.
Proof.
  cbv zeta. apply N.eqb_eq.
  apply (for_all_byte (fun y =>
    N.eqb (N.lor (N.shiftl (N.shiftr y 4) 4) (N.land y 15)) y)).
  vm_compute. reflexivity.
Qed.

Lemma third_byte_back (b c : byte) :
  let y := Byte.to_N b in
  let z := Byte.to_N c in
  N.lor (N.shiftl (N.land (N.land (N.lor (N.shiftl (N.land y 15) 2) (N.shiftr z 6)) 63) 3) 6)
        (N.land (N.land z 63) 63) = z.
Proof.
  cbv zeta. apply N.eqb_eq.
  apply (for_all_byte_pairs (fun y z =>
    N.eqb (N.lor (N.shiftl (N.land (N.land (N.lor (N.shiftl (N.land y 15) 2)
                                                  (N.shiftr z 6)) 63) 3) 6)
                 (N.land (N.land z 63) 63))
          z)).
  vm_compute. reflexivity.
Qed.

(** Induction on a list by groups of three. *)
Lemma list_ind_by_three {A} (P : list A -> Prop) :
  P [] -> (forall a, P [a]) -> (forall a b, P [a; b]) ->
  (forall a b c rest, P rest -> P (a :: b :: c :: rest)) ->
  forall l, P l.
Proof.
  intros H0 H1 H2 H3 l.
  assert (H : forall n l, List.length l <= n -> P l).
  { clear l. induction n as [|n IH]; intros l Hl.
    - destruct l; [exact H0 | cbn in Hl; lia].
    - destruct l as [|a [|b [|c rest]]]; auto.
      apply H3, IH. cbn in Hl. lia. }
  apply (H (List.length l)). lia.
Qed.

#[local] Arguments b64encode : simpl nomatch.
#[local] Arguments N.shiftl : simpl never.
#[local] Arguments N.shiftr : simpl never.
#[local] Arguments N.land : simpl never.
#[local] Arguments N.lor : simpl never.
#[local] Arguments b64_digit : simpl never.
#[local] Arguments b64_index : simpl never.
#[local] Arguments Byte.to_N : simpl never.
#[local] Arguments byte_of_N : simpl never.

(** Decoding what the encoder wrote gives the data back. *)
Lemma b64decode_b64encode (data : bytes) : b64decode (b64encode data) = data.
Proof.
  induction data as [ | a | a b | a b c rest IH] using list_ind_by_three.
  - reflexivity.
  - cbn [b64encode b64decode]. cbv zeta.
    change (Byte.eqb b64_pad b64_pad) with true. cbv iota.
    rewrite !b64_index_digit, first_byte_back_alone, byte_of_to_N. reflexivity.
  - cbn [b64encode b64decode]. cbv zeta.
    change (Byte.eqb b64_pad b64_pad) with true. cbv iota.
    rewrite b64_digit_not_pad, !b64_index_digit.
    rewrite first_byte_back, second_byte_high, second_byte_low_alone, second_byte_back.
    rewrite !byte_of_to_N. reflexivity.
  - cbn [b64encode b64decode]. cbv zeta.
    rewrite b64_digit_not_pad, !b64_index_digit.
    rewrite first_byte_back, second_byte_high, second_byte_low, second_byte_back,
      third_byte_back.
    rewrite !byte_of_to_N, IH. reflexivity.
Qed.

(** X8. The certificate string that goes into the account request
    determines the content of the certificate file: two contents with the
    same encoding are the same. *)
Theorem certificate_encoding_injective (content content' : string) :
  bytes_decode (b64encode (str_encode content))
  = bytes_decode (b64encode (str_encode content')) ->
  content = content'.
Proof.
  unfold bytes_decode, str_encode. intros H.
  apply (f_equal list_byte_of_string) in H.
  rewrite !list_byte_of_string_of_list_byte in H.
  apply (f_equal b64decode) in H. rewrite !b64decode_b64encode in H.
  apply (f_equal string_of_list_byte) in H.
  now rewrite !string_of_list_byte_of_string in H.
Qed.

Lemma certificate_encoding_injective_witness :
  "foobar" = "foobar".
Proof.
  apply (certificate_encoding_injective "foobar" "foobar"). reflexivity.
Defined.

(** X9. The encoded certificate is made of characters of the base64
    alphabet and of the padding character only, four for every three bytes
    of the content, the last group filled up. *)
Theorem b64encode_shape (data : bytes) :
  Forall (fun c => In c b64_alphabet \/ c = b64_pad) (b64encode data) /\
  List.length (b64encode data) = 4 * Nat.div (List.length data + 2) 3.
Proof.
  assert (Hdigit : forall n, In (b64_digit n) b64_alphabet \/ b64_digit n = b64_pad).
  { intros n. left. unfold b64_digit. apply nth_In.
    pose proof (land_63_below n). change (List.length b64_alphabet) with 64. lia. }
  induction data as [ | a | a b | a b c rest [IHchars IHlen]] using list_ind_by_three.
  - split; [constructor | reflexivity].
  - split; [ | reflexivity].
    cbn [b64encode].
    repeat (constructor; [first [apply Hdigit | right; reflexivity] | ]). constructor.
  - split; [ | reflexivity].
    cbn [b64encode].
    repeat (constructor; [first [apply Hdigit | right; reflexivity] | ]). constructor.
  - split.
    + cbn [b64encode]. repeat (constructor; [apply Hdigit | ]). exact IHchars.
    + cbn [b64encode List.length]. rewrite IHlen.
      replace (S (S (S (List.length rest))) + 2) with (List.length rest + 2 + 1 * 3) by lia.
      rewrite Nat.div_add by discriminate. lia.
Qed.
